(** * vibe_check_backend: a shallow embedding of the report service

    The development follows the layout of the repository:
    - [py]        the fragment of Python the handlers rely on (exceptions,
                  [try]/[except], value comparison, dictionaries);
    - [models]    the [user] and [report] tables of app/models.py and the
                  database session seen as an explicit store;
    - [database]  app/database.py: the session object that [get_session]
                  hands to the handlers, and what the handlers written for
                  a synchronous session get from it;
    - [schemas]   the request schemas of app/schemas.py;
    - [security]  app/core/security.py;
    - [auth_user] app/dependencies/auth_user.py;
    - [reports], [users], [auth]  the routers under app/routers.

    Third-party code is not part of the repository.  It enters the model
    through what the handlers can observe of it: jose's [jwt.decode],
    passlib's [CryptContext], the SQL statements sent to PostgreSQL/PostGIS
    and FastAPI's request pipeline.  Each such definition says which library
    behaviour it stands for.  Primitives that are only known by their
    interface (the bcrypt digest, the geodesic distance of PostGIS) are
    Section variables. *)

From Stdlib Require Import List String Ascii ZArith QArith Bool Lia.
From Stdlib Require Import DecimalString Sorting.Sorted Sorting.Permutation.
From Stdlib Require Import FinFun ListDec Qabs.
Import ListNotations.

Open Scope string_scope.
Open Scope Z_scope.

(* ===================================================================== *)
(** ** Python values, exceptions and control flow                         *)
(* ===================================================================== *)

Module py.

(** Values whose dynamic type matters to the handlers: [==] and [!=]
    between a [str] and an [int] are decided by the types alone. *)
Inductive value :=
| Int (z : Z)
| Str (s : string)
| None_.

(** Python's [==] on these values. *)
Definition value_eq (a b : value) : bool :=
  match a, b with
  | Int x, Int y => x =? y
  | Str x, Str y => String.eqb x y
  | None_, None_ => true
  | _, _ => false
  end.

(** Python's [!=]. *)
Definition value_ne (a b : value) : bool := negb (value_eq a b).

(** [str(n)] for an integer. *)
Definition str_of_int (z : Z) : string := NilEmpty.string_of_int (Z.to_int z).

(** If [p] is a prefix of [s], what follows it. *)
Fixpoint strip_prefix (p s : string) : option string :=
  match p, s with
  | EmptyString, _ => Some s
  | String a p', String b s' =>
      if Ascii.eqb a b then strip_prefix p' s' else None
  | String _ _, EmptyString => None
  end.

(** The first [n] characters of [s] and the rest. *)
Fixpoint split_at (n : nat) (s : string) : option (string * string) :=
  match n, s with
  | O, _ => Some (EmptyString, s)
  | S n', String a s' =>
      match split_at n' s' with
      | Some (l, r) => Some (String a l, r)
      | None => None
      end
  | S _, EmptyString => None
  end.

(** A [str] is held as its UTF-8 encoding.  Python counts characters, not
    bytes: the bytes 0x80..0xBF continue a character and do not start
    one. *)
Definition is_continuation (a : ascii) : bool :=
  let n := nat_of_ascii a in (128 <=? n)%nat && (n <=? 191)%nat.

(** [len(s)] for a [str]. *)
Fixpoint len (s : string) : nat :=
  match s with
  | EmptyString => O
  | String a s' => if is_continuation a then len s' else S (len s')
  end.

(** [s.startswith(p)]. *)
Definition startswith (s p : string) : bool :=
  match strip_prefix p s with Some _ => true | None => false end.

(** The dict [{"status": ..., "message": ...}] returned by the delete
    handlers. *)
Record status_message := mk_status_message {
  status : string;
  message : string
}.

(** Exceptions that the modelled code raises or lets through.  [JWTError]
    is jose's base class; [ExpiredSignatureError] and [JWTClaimsError] are
    its subclasses.  [UnknownHashError], [MalformedHashError] and
    [PasswordSizeError] are passlib's (all of them [ValueError]s).
    [IntegrityError] is SQLAlchemy's, and so is [DBAPIError], which wraps
    the refusal of a query argument by the asyncpg driver.
    [RequestValidationError] is raised by FastAPI when a request does not
    satisfy the handler's schema.  [AttributeError] is Python's own. *)
Inductive exn :=
| HTTPException (status_code : Z) (detail : string)
| RequestValidationError (errors : list (string * string))
| JWTError (msg : string)
| ExpiredSignatureError (msg : string)
| JWTClaimsError (msg : string)
| UnknownHashError
| MalformedHashError
| PasswordSizeError
| IntegrityError (constraint : string)
| DBAPIError (msg : string)
| AttributeError (msg : string)
| OSError.

Definition is_HTTPException (e : exn) : bool :=
  match e with HTTPException _ _ => true | _ => false end.

(** [isinstance(e, JWTError)]. *)
Definition is_JWTError (e : exn) : bool :=
  match e with
  | JWTError _ | ExpiredSignatureError _ | JWTClaimsError _ => true
  | _ => false
  end.

Definition is_IntegrityError (e : exn) : bool :=
  match e with IntegrityError _ => true | _ => false end.

Definition is_RequestValidationError (e : exn) : bool :=
  match e with RequestValidationError _ => true | _ => false end.

(** [isinstance(e, Exception)]: every exception of the model. *)
Definition is_Exception (e : exn) : bool := true.

(** [str(exc)], used by the handlers that turn an exception into a 500. *)
Definition str_of_exn (e : exn) : string :=
  match e with
  | HTTPException _ d => d
  | RequestValidationError _ => "validation error"
  | JWTError m | ExpiredSignatureError m | JWTClaimsError m => m
  | UnknownHashError => "hash could not be identified"
  | MalformedHashError => "malformed bcrypt_sha256 hash"
  | PasswordSizeError => "password exceeds maximum allowed size"
  | IntegrityError c => c
  | DBAPIError m => m
  | AttributeError m => m
  | OSError => "OSError"
  end.

(** The result of running a piece of Python: a value or a raised
    exception. *)
Inductive outcome (A : Type) :=
| Return (a : A)
| Raise (e : exn).
Arguments Return {A} a.
Arguments Raise {A} e.

Definition bind {A B} (m : outcome A) (f : A -> outcome B) : outcome B :=
  match m with
  | Return a => f a
  | Raise e => Raise e
  end.

(** [try: m  except C as e: h e] where [handles] decides membership in the
    class [C]. *)
Definition try_except {A} (m : outcome A) (handles : exn -> bool)
    (h : exn -> outcome A) : outcome A :=
  match m with
  | Return a => Return a
  | Raise e => if handles e then h e else Raise e
  end.

(** The status line FastAPI sends: a returned value is a 200, an
    [HTTPException] carries its own status, a request that fails schema
    validation is a 422, and any other exception that leaves a handler or a
    dependency is answered by the server-error middleware with a 500. *)
Definition response_status {A} (o : outcome A) : Z :=
  match o with
  | Return _ => 200
  | Raise (HTTPException s _) => s
  | Raise (RequestValidationError _) => 422
  | Raise _ => 500
  end.

(** A [dict] with string keys, in insertion order. *)
Definition dict := list (string * value).

Fixpoint dict_get (k : string) (d : dict) : option value :=
  match d with
  | [] => None
  | (k', v) :: d' => if String.eqb k k' then Some v else dict_get k d'
  end.

(** [k in d]. *)
Definition dict_contains (k : string) (d : dict) : bool :=
  match dict_get k d with Some _ => true | None => false end.

(** [d[k] = v]: overwrite in place, or append a new key. *)
Fixpoint dict_set (k : string) (v : value) (d : dict) : dict :=
  match d with
  | [] => [(k, v)]
  | (k', v') :: d' =>
      if String.eqb k k' then (k', v) :: d' else (k', v') :: dict_set k v d'
  end.

(** Truth value of a dict: empty is false. *)
Definition dict_truthy (d : dict) : bool :=
  match d with [] => false | _ => true end.

End py.

Import py.

Declare Scope py_scope.
Notation "x <- m ;; k" := (py.bind m (fun x => k))
  (at level 61, m at next level, right associativity) : py_scope.
Open Scope py_scope.

(* ===================================================================== *)
(** ** app/models.py and the database session                             *)
(* ===================================================================== *)

Module models.

(** A PostGIS point, [ST_MakePoint(lon, lat)] with SRID 4326: [x] is the
    longitude ([ST_X]) and [y] the latitude ([ST_Y]).  Floating-point
    columns are modelled by rationals. *)
Record Point := ST_MakePoint { ST_X : Q; ST_Y : Q }.

(** class Report(SQLModel, table=True).  [user_id] is declared [str], so
    the column is a VARCHAR and the driver returns a [str] for it. *)
Module Report.
Record t := mk {
  id : Z;
  location : Point;
  place_name : string;
  crowd_status : Z;
  decibel_level : Q;
  vibe_tags : list string;
  user_id : string;
  timestamp : Z
}.
End Report.

(** class User(SQLModel, table=True).  [id] is the integer primary key;
    [username] is unique and not null; [email] is unique when not null. *)
Module User.
Record t := mk {
  id : Z;
  username : string;
  email : option string;
  password_hash : string;
  name : option string;
  avatar_url : option string;
  bio : option string;
  joined_at : Z;
  is_active : bool
}.
End User.

(** What a request sees through its database session: the rows of the two
    tables in heap order and the two id sequences.  The tables [follower]
    and [session] are written by no route of the repository and are left
    out, as are [vibe], [vibe_media] and [vibe_metrics]. *)
Record Store := mkStore {
  users : list User.t;
  reports : list Report.t;
  user_id_seq : Z;
  report_id_seq : Z
}.

Definition with_users (us : list User.t) (s : Store) : Store :=
  {| users := us; reports := reports s;
     user_id_seq := user_id_seq s; report_id_seq := report_id_seq s |}.

Definition with_reports (rs : list Report.t) (s : Store) : Store :=
  {| users := users s; reports := rs;
     user_id_seq := user_id_seq s; report_id_seq := report_id_seq s |}.

(** [select(User).where(User.username == username)] followed by
    [.first()]. *)
Definition first_user_by_username (username : string) (s : Store)
    : option User.t :=
  find (fun u => String.eqb (User.username u) username) (users s).

(** [session.get(User, user_id)]. *)
Definition get_user (user_id : Z) (s : Store) : option User.t :=
  find (fun u => User.id u =? user_id) (users s).

Definition option_string_eqb (a b : option string) : bool :=
  match a, b with
  | Some x, Some y => String.eqb x y
  | _, _ => false
  end.

(** The unique indexes of the [user] table, checked against the other
    rows: a second row with the same username, or with the same non-null
    email, is refused. *)
Definition unique_violation (u : User.t) (others : list User.t)
    : option string :=
  if existsb (fun o => String.eqb (User.username o) (User.username u)) others
  then Some "ix_user_username"
  else if existsb (fun o => option_string_eqb (User.email o) (User.email u))
                  others
  then Some "user_email_key"
  else None.

(** [session.add(new_user); session.commit(); session.refresh(new_user)]
    for a new row: the id is drawn from the sequence (and stays drawn when
    the insert is refused), then the unique indexes are checked. *)
Definition insert_user (mk_row : Z -> User.t) (s : Store)
    : outcome User.t * Store :=
  let row := mk_row (user_id_seq s) in
  let s1 := {| users := users s; reports := reports s;
               user_id_seq := user_id_seq s + 1;
               report_id_seq := report_id_seq s |} in
  match unique_violation row (users s) with
  | Some c => (Raise (IntegrityError c), s1)
  | None => (Return row, with_users (users s ++ [row]) s1)
  end.

(** The attributes of a loaded [User] that the profile form assigns. *)
Inductive profile_attr :=
| attr_name
| attr_bio
| attr_avatar_url.

(** [setattr(user, key, value)] for one of these attributes and a [str]
    value. *)
Definition setattr (user : User.t) (key : profile_attr) (value : string)
    : User.t :=
  {| User.id := User.id user;
     User.username := User.username user;
     User.email := User.email user;
     User.password_hash := User.password_hash user;
     User.name :=
       match key with attr_name => Some value | _ => User.name user end;
     User.avatar_url :=
       match key with
       | attr_avatar_url => Some value
       | _ => User.avatar_url user
       end;
     User.bio :=
       match key with attr_bio => Some value | _ => User.bio user end;
     User.joined_at := User.joined_at user;
     User.is_active := User.is_active user |}.

(** The assignments of a dict of updates, in its order. *)
Definition setattrs (user : User.t) (update_data : list (profile_attr * string))
    : User.t :=
  fold_left (fun u kv => setattr u (fst kv) (snd kv)) update_data user.

(** [session.add(user); await session.commit()] for a loaded row whose
    attributes were assigned: an UPDATE of the assigned columns where the
    primary key is that of the row.  [name], [bio] and [avatar_url] carry no
    constraint, so the statement is not refused. *)
Definition update_user_columns (user_id : Z)
    (update_data : list (profile_attr * string)) (s : Store) : Store :=
  with_users
    (map (fun o => if User.id o =? user_id then setattrs o update_data else o)
         (users s))
    s.

End models.

Import models.

(* ===================================================================== *)
(** ** app/database.py                                                    *)
(* ===================================================================== *)

(** [get_session] yields one [sqlalchemy.ext.asyncio.AsyncSession] per
    request, and FastAPI hands that object to every handler and dependency
    that declares [Depends(get_session)], whatever type the parameter is
    annotated with.  The methods [execute], [commit], [refresh], [get] and
    [delete] of an [AsyncSession] are coroutine functions, and it has no
    method [exec] (that one is sqlmodel's).

    routers/auth.py, routers/reports.py and crud.py await these methods;
    their statements are modelled by the [Store] operations of [models].
    dependencies/auth_user.py and routers/users.py are plain [def]s that
    call the session as a synchronous one; this module says what they get. *)
Module database.

(** [session.exec]: reading the attribute raises.  Nothing is returned, so
    the type of the result has no value. *)
Definition exec : outcome Empty_set :=
  Raise (AttributeError "'AsyncSession' object has no attribute 'exec'").

(** What the call of a coroutine function returns when it is not awaited:
    a coroutine object.  The body of the function has not run, so the
    database has neither been read nor written. *)
Inductive coroutine := Coroutine.

(** [session.get(User, user_id)], not awaited. *)
Definition get (user_id : Z) (session : Store) : coroutine := Coroutine.

(** [session.delete(obj)] and [session.commit()], not awaited: the
    coroutine object is dropped and the store is what it was. *)
Definition delete (obj : coroutine) (session : Store) : Store := session.
Definition commit (session : Store) : Store := session.

(** [bool(c)]: an object without [__bool__] and [__len__] is true. *)
Definition truthy (c : coroutine) : bool := true.

(** [c.name] and [setattr(c, name, value)]: a coroutine object has none of
    the attributes of a row and accepts none. *)
Definition getattr (c : coroutine) (name : string) : outcome Empty_set :=
  Raise (AttributeError
           ("'coroutine' object has no attribute '" ++ name ++ "'")).

Definition setattr (c : coroutine) (name : string) : outcome Empty_set :=
  Raise (AttributeError
           ("'coroutine' object has no attribute '" ++ name ++ "'")).

End database.

(* ===================================================================== *)
(** ** app/schemas.py                                                     *)
(* ===================================================================== *)

Module schemas.

(** class ReportCreate(BaseModel).  A value of this record is a request
    body whose fields are present and have the declared JSON types;
    [validate] lists the [Field] constraints that it breaks, in the order of
    the fields.  [max_length] and [min_length] count characters. *)
Module ReportCreate.
Record t := mk {
  lat : Q;
  lon : Q;
  place_name : string;
  crowd_status : Z;
  decibel_level : Q;
  vibe_tags : list string;
  user_id : string
}.

Definition validate (r : t) : list (string * string) :=
  (if (len (place_name r) <=? 100)%nat then []
   else [("place_name", "String should have at most 100 characters")])
  ++ (if 1 <=? crowd_status r then []
      else [("crowd_status", "Input should be greater than or equal to 1")])
  ++ (if crowd_status r <=? 3 then []
      else [("crowd_status", "Input should be less than or equal to 3")])
  ++ (if (len (user_id r) <=? 50)%nat then []
      else [("user_id", "String should have at most 50 characters")]).
End ReportCreate.

(** class ReportRead(BaseModel), the response of a submission. *)
Module ReportRead.
Record t := mk {
  id : Z;
  place_name : string;
  crowd_status : Z;
  decibel_level : Q;
  vibe_tags : list string;
  user_id : string;
  timestamp : Z;
  latitude : option Q;
  longitude : option Q
}.
End ReportRead.

(** class UserCreate(UserBase): [password] has [min_length=6]. *)
Module UserCreate.
Record t := mk {
  username : string;
  email : option string;
  name : option string;
  avatar_url : option string;
  bio : option string;
  password : string
}.

Definition validate (u : t) : list (string * string) :=
  if (6 <=? len (password u))%nat then []
  else [("password", "String should have at least 6 characters")].
End UserCreate.

(** class UserUpdate(BaseModel): every field is optional.  A field is
    either absent from the request ([None]), or set to null
    ([Some None]), or set to a string. *)
Module UserUpdate.
Record t := mk {
  username : option (option string);
  email : option (option string);
  name : option (option string);
  bio : option (option string);
  avatar_url : option (option string)
}.


End UserUpdate.

End schemas.

Import schemas.

(* ===================================================================== *)
(** ** python-jose, as far as [jwt.encode] and [jwt.decode] are used      *)
(* ===================================================================== *)

Module jose.

(** A bearer token is a [str].  jose either fails to read it as a compact
    JWS with a JSON object as payload ([Opaque]), or reads a header
    algorithm, the claims and a signature ([Jws]).  The signature is
    represented by the key that produced it over these claims: HS256 is
    taken as an ideal MAC, so it verifies under a key exactly when it was
    made with that key.  JSON values in the claims are integers and
    strings. *)
Inductive token :=
| Opaque (raw : string)
| Jws (alg : string) (claims : dict) (signing_key : string).

(** [jwt.encode(claims, key, algorithm=algorithm)]. *)
Definition encode (claims : dict) (key : string) (algorithm : string)
    : token :=
  Jws algorithm claims key.

(** [_validate_exp]: an absent [exp] is accepted, an [exp] in the past
    is rejected with [ExpiredSignatureError]. *)
Definition validate_exp (now : Z) (claims : dict) : outcome unit :=
  match dict_get "exp" claims with
  | None => Return tt
  | Some (Int exp) =>
      if exp <? now then Raise (ExpiredSignatureError "Signature has expired.")
      else Return tt
  | Some _ =>
      Raise (JWTClaimsError "Expiration Time claim (exp) must be an integer.")
  end.

(** [_validate_sub]: a subject, when present, must be a string. *)
Definition validate_sub (claims : dict) : outcome unit :=
  match dict_get "sub" claims with
  | None | Some (Str _) => Return tt
  | Some _ => Raise (JWTClaimsError "Subject must be a string.")
  end.

(** [jwt.decode(token, key, algorithms=algorithms)] at the instant [now]
    (seconds since the epoch).  Every failure is a [JWTError] or one of its
    subclasses. *)
Definition decode (now : Z) (tok : token) (key : string)
    (algorithms : list string) : outcome dict :=
  match tok with
  | Opaque _ => Raise (JWTError "Not enough segments")
  | Jws alg claims signing_key =>
      if negb (existsb (String.eqb alg) algorithms)
      then Raise (JWTError "The specified alg value is not allowed")
      else if negb (String.eqb signing_key key)
      then Raise (JWTError "Signature verification failed.")
      else
        _ <- validate_exp now claims ;;
        _ <- validate_sub claims ;;
        Return claims
  end.

End jose.

(* ===================================================================== *)
(** ** passlib's [CryptContext(schemes=["bcrypt_sha256"])]                *)
(* ===================================================================== *)

Module passlib.

Fixpoint no_dollar (s : string) : bool :=
  match s with
  | EmptyString => true
  | String a s' => negb (Ascii.eqb a "$") && no_dollar s'
  end.

(** Passwords longer than this are refused by every passlib handler
    ([passlib.utils.handlers.validate_secret]). *)
Definition MAX_PASSWORD_SIZE : nat := 4096.

Definition validate_secret (secret : string) : outcome unit :=
  if (String.length secret <=? MAX_PASSWORD_SIZE)%nat then Return tt
  else Raise PasswordSizeError.

(** The identifying prefix of the scheme and the settings the context
    hashes with (version 2, bcrypt variant 2b, cost 12). *)
Definition ident : string := "$bcrypt-sha256$".
Definition settings : string := "v=2,t=2b,r=12$".

Definition salt_ok (salt : string) : bool :=
  (String.length salt =? 22)%nat && no_dollar salt.

Definition checksum_ok (chk : string) : bool :=
  (String.length chk =? 31)%nat && no_dollar chk.

(** [bcrypt_sha256.identify]. *)
Definition identify (hash : string) : bool := startswith hash ident.

(** The hash string of a salt and a checksum. *)
Definition to_string (salt chk : string) : string :=
  ident ++ settings ++ salt ++ "$" ++ chk.

(** [bcrypt_sha256.from_string] for hashes made with the context's
    settings: a 22-character salt and a 31-character checksum, neither
    containing [$]. *)
Definition from_string (hash : string) : option (string * string) :=
  match strip_prefix (ident ++ settings) hash with
  | None => None
  | Some rest =>
      match split_at 22 rest with
      | Some (salt, String "$" chk) =>
          if salt_ok salt && checksum_ok chk then Some (salt, chk) else None
      | _ => None
      end
  end.

Section handler.

(** The checksum bcrypt computes from a salt and the HMAC-SHA256 of the
    password keyed with that salt. *)
Variable bcrypt_digest : string -> string -> string.

(** [bcrypt_sha256.hash] with the salt the handler drew. *)
Definition handler_hash (salt secret : string) : outcome string :=
  _ <- validate_secret secret ;;
  Return (to_string salt (bcrypt_digest salt secret)).

(** [bcrypt_sha256.verify]: the checksum is recomputed with the salt read
    from the hash and compared with the stored one. *)
Definition handler_verify (secret hash : string) : outcome bool :=
  _ <- validate_secret secret ;;
  match from_string hash with
  | None => Raise MalformedHashError
  | Some (salt, chk) => Return (String.eqb (bcrypt_digest salt secret) chk)
  end.

(** [CryptContext.hash]: the only scheme of the context is used. *)
Definition CryptContext_hash (salt secret : string) : outcome string :=
  handler_hash salt secret.

(** [CryptContext.verify]: the hash is first matched against the schemes
    of the context; a hash that none of them identifies raises
    [UnknownHashError]. *)
Definition CryptContext_verify (secret hash : string) : outcome bool :=
  if identify hash then handler_verify secret hash
  else Raise UnknownHashError.

End handler.

End passlib.

(* ===================================================================== *)
(** ** app/core/security.py                                               *)
(* ===================================================================== *)

Module security.

Section crypt.

Variable bcrypt_digest : string -> string -> string.

(** [hash_password(password)].  The salt is the one passlib draws for the
    call; it is an argument here. *)
Definition hash_password (salt password : string) : outcome string :=
  passlib.CryptContext_hash bcrypt_digest salt password.

(** [verify_password(plain_password, hashed_password)]. *)
Definition verify_password (plain_password hashed_password : string)
    : outcome bool :=
  passlib.CryptContext_verify bcrypt_digest plain_password hashed_password.

End crypt.

Definition SECRET_KEY : string := "CHANGE_ME_TO_REAL_SECRET".
Definition ALGORITHM : string := "HS256".
Definition ACCESS_TOKEN_EXPIRE_MINUTES : Z := 60 * 24 * 7.

(** [create_access_token(data, expires_delta)] at the instant [now].
    Durations are in seconds; a zero [timedelta] is false in Python, so it
    selects the default like [None] does. *)
Definition create_access_token (now : Z) (data : dict)
    (expires_delta : option Z) : jose.token :=
  let to_encode := data in
  let expire :=
    match expires_delta with
    | Some d => if d =? 0 then now + ACCESS_TOKEN_EXPIRE_MINUTES * 60
                else now + d
    | None => now + ACCESS_TOKEN_EXPIRE_MINUTES * 60
    end in
  let to_encode := dict_set "exp" (Int expire) to_encode in
  jose.encode to_encode SECRET_KEY ALGORITHM.

(** [decode_access_token(token)]: the [except JWTError] clause re-raises
    what it caught. *)
Definition decode_access_token (now : Z) (token : jose.token)
    : outcome dict :=
  try_except
    (payload <- jose.decode now token SECRET_KEY [ALGORITHM] ;;
     Return payload)
    is_JWTError
    (fun e => Raise e).

(** [get_token_subject(token)]: the subject, or [None] on a [JWTError]. *)
Definition get_token_subject (now : Z) (token : jose.token)
    : outcome (option value) :=
  try_except
    (payload <- decode_access_token now token ;;
     Return (dict_get "sub" payload))
    is_JWTError
    (fun _ => Return None).

End security.

(* ===================================================================== *)
(** ** app/dependencies/auth_user.py                                      *)
(* ===================================================================== *)

Module auth_user.

(** [OAuth2PasswordBearer(tokenUrl=...)]: the token of the request's
    [Authorization: Bearer] header; a request without one is refused with
    a 401 by the scheme itself. *)
Definition oauth2_scheme (authorization : option jose.token)
    : outcome jose.token :=
  match authorization with
  | Some token => Return token
  | None => Raise (HTTPException 401 "Not authenticated")
  end.

(** [select(User).where(User.username == username)] with the value of the
    [sub] claim: only a string can equal a username. *)
Definition first_user_by_subject (sub : option value) (session : Store)
    : option User.t :=
  match sub with
  | Some (Str username) => first_user_by_username username session
  | _ => None
  end.

(** [get_current_user(token, session)].  The function is a plain [def]
    and [session] is the [AsyncSession] of the request: once the token has
    been decoded and carries a subject, the statement
    [session.exec(select(User).where(...)).first()] raises at [session.exec],
    and the lookup, the 404 test and [return user] are not reached. *)
Definition get_current_user (now : Z) (token : jose.token) (session : Store)
    : outcome User.t :=
  payload <- security.decode_access_token now token ;;
  if negb (dict_truthy payload) || negb (dict_contains "sub" payload)
  then Raise (HTTPException 401 "Invalid or expired authentication token")
  else
    let username := dict_get "sub" payload in
    rows <- database.exec ;;
    match rows return outcome User.t with end.

(** [Depends(get_current_user)] as FastAPI resolves it for a request:
    first the security scheme, then the dependency itself. *)
Definition current_user_dependency (now : Z)
    (authorization : option jose.token) (session : Store)
    : outcome User.t :=
  token <- oauth2_scheme authorization ;;
  get_current_user now token session.

End auth_user.

(* ===================================================================== *)
(** ** The SQL clauses used by the raw queries                            *)
(* ===================================================================== *)

Module sql.

Section clauses.

Context {row : Type}.

(** [ORDER BY]: the rows sorted by a comparison (insertion into a sorted
    list, rows that compare equal keep their heap order). *)
Fixpoint insert_sorted (leb : row -> row -> bool) (x : row) (l : list row)
    : list row :=
  match l with
  | [] => [x]
  | y :: l' => if leb x y then x :: y :: l' else y :: insert_sorted leb x l'
  end.

Fixpoint order_by (leb : row -> row -> bool) (l : list row) : list row :=
  match l with
  | [] => []
  | x :: l' => insert_sorted leb x (order_by leb l')
  end.

(** [SELECT DISTINCT ON (key)] over ordered rows: of each run of rows
    with equal keys only the first is kept.  [prev] is the key of the row
    read last. *)
Fixpoint distinct_on_from (key : row -> string) (prev : option string)
    (l : list row) : list row :=
  match l with
  | [] => []
  | x :: l' =>
      match prev with
      | Some k =>
          if String.eqb k (key x) then distinct_on_from key prev l'
          else x :: distinct_on_from key (Some (key x)) l'
      | None => x :: distinct_on_from key (Some (key x)) l'
      end
  end.

Definition distinct_on (key : row -> string) (l : list row) : list row :=
  distinct_on_from key None l.

End clauses.

(** asyncpg encodes each query argument for the type PostgreSQL inferred
    for its placeholder, and refuses a Python value of another type; the
    refusal reaches the handler as SQLAlchemy's [DBAPIError].  For a VARCHAR
    column only a [str] is accepted, or [None], which is sent as NULL. *)
Definition bind_varchar (v : value) : outcome (option string) :=
  match v with
  | Str s => Return (Some s)
  | None_ => Return None
  | Int _ =>
      Raise (DBAPIError "invalid input for query argument (expected str, got int)")
  end.

(** For an INTEGER column the argument must fit in 32 bits. *)
Definition int32 (z : Z) : bool :=
  (-2147483648 <=? z) && (z <=? 2147483647).

Definition bind_int4 (z : Z) : outcome Z :=
  if int32 z then Return z
  else Raise (DBAPIError "invalid input for query argument (value out of int32 range)").

End sql.

(* ===================================================================== *)
(** ** app/routers/reports.py                                             *)
(* ===================================================================== *)

Module reports.

(** The two [except] clauses that close every handler of this router:
    [except HTTPException: raise] and
    [except Exception as exc: raise HTTPException(500, str(exc))]. *)
Definition http_or_500 {A} (r : outcome A * Store) : outcome A * Store :=
  match r with
  | (Return a, s) => (Return a, s)
  | (Raise e, s) =>
      if is_HTTPException e then (Raise e, s)
      else if is_Exception e
      then (Raise (HTTPException 500 (str_of_exn e)), s)
      else (Raise e, s)
  end.

(** The [INSERT INTO report ... RETURNING ...] of [submit_report] with
    its arguments bound.  The argument for the VARCHAR column [user_id] must
    be a [str].  The statement names no ["timestamp"] column, and that
    column is NOT NULL with a default that only the ORM applies
    ([default_factory]), so a statement whose arguments are accepted is
    refused by the table; the id it drew from the sequence stays drawn.  No
    row is returned in either case. *)
Definition insert_report (place_name : string) (crowd_status : Z)
    (decibel_level : Q) (vibe_tags : list string) (user_id : value)
    (lon lat : Q) (s : Store) : outcome Empty_set * Store :=
  match sql.bind_varchar user_id with
  | Raise e => (Raise e, s)
  | Return owner =>
      (Raise (IntegrityError
                "null value in column 'timestamp' violates not-null constraint"),
       {| users := users s; reports := reports s;
          user_id_seq := user_id_seq s;
          report_id_seq := report_id_seq s + 1 |})
  end.

(** [submit_report(report, session, current_user)].  [current_user.id] is
    an [int]; the statements after the INSERT (the commit, the test for a
    missing row and the construction of the answer) need the row it would
    return. *)
Definition submit_report (report : ReportCreate.t) (session : Store)
    (current_user : User.t) : outcome ReportRead.t * Store :=
  http_or_500
    (match
       insert_report
         (ReportCreate.place_name report)
         (ReportCreate.crowd_status report)
         (ReportCreate.decibel_level report)
         (ReportCreate.vibe_tags report)
         (Int (User.id current_user))
         (ReportCreate.lon report)
         (ReportCreate.lat report)
         session
     with
     | (Raise e, session') => (Raise e, session')
     | (Return row, _) => match row with end
     end).

(** [ORDER BY place_name, "timestamp" DESC]: place names ascending, and
    within a place the latest report first. *)
Definition by_place_then_latest (a b : Report.t) : bool :=
  match String.compare (Report.place_name a) (Report.place_name b) with
  | Lt => true
  | Eq => Report.timestamp b <=? Report.timestamp a
  | Gt => false
  end.

(** Python's [round(x, 2)], on rationals: to the nearest hundredth, ties
    to the even one. *)
Definition round2 (x : Q) : Q :=
  let h := Qmult x (inject_Z 100) in
  let n := Qnum h in
  let d := Zpos (Qden h) in
  let fl := n / d in
  let up :=
    match 2 * (n mod d) ?= d with
    | Lt => false
    | Eq => negb (Z.even fl)
    | Gt => true
    end in
  Qmake (if up then fl + 1 else fl) 100.

(** One element of the [data] list of the response. *)
Record NearbyRow := mkNearbyRow {
  id : Z;
  place_name : string;
  crowd_status : Z;
  decibel_level : Q;
  vibe_tags : list string;
  user_id : string;
  timestamp : Z;
  latitude : Q;
  longitude : Q;
  distance_km : Q
}.

Record NearbyResponse := mkNearbyResponse {
  status : string;
  count : nat;
  radius_km : Q;
  data : list NearbyRow
}.

Section postgis.

(** [ST_Distance] and [ST_DWithin] on geographies, in meters. *)
Variable ST_Distance : Point -> Point -> Q.
Variable ST_DWithin : Point -> Point -> Q -> bool.

(** The rows selected by the query of [get_nearby_reports]: the [WHERE],
    [ORDER BY] and [DISTINCT ON] clauses, in the order PostgreSQL applies
    them. *)
Definition nearby_rows (lon lat radius_meters : Q) (session : Store)
    : list Report.t :=
  let here := ST_MakePoint lon lat in
  sql.distinct_on Report.place_name
    (sql.order_by by_place_then_latest
       (filter (fun r => ST_DWithin (Report.location r) here radius_meters)
               (reports session))).

(** The element appended to [out] for a selected row.  [vibe_tags] is an
    ARRAY column and arrives as a list, so the JSON decoding reserved for
    string values does not apply. *)
Definition nearby_row (lon lat : Q) (r : Report.t) : NearbyRow :=
  {| id := Report.id r;
     place_name := Report.place_name r;
     crowd_status := Report.crowd_status r;
     decibel_level := Report.decibel_level r;
     vibe_tags := Report.vibe_tags r;
     user_id := Report.user_id r;
     timestamp := Report.timestamp r;
     latitude := ST_Y (Report.location r);
     longitude := ST_X (Report.location r);
     distance_km :=
       round2 (Qdiv (ST_Distance (Report.location r) (ST_MakePoint lon lat))
                    (inject_Z 1000)) |}.

(** [get_nearby_reports(lat, lon, radius_km, session)]. *)
Definition get_nearby_reports (lat lon radius_km : Q) (session : Store)
    : outcome NearbyResponse :=
  try_except
    (let radius_meters := Qmult radius_km (inject_Z 1000) in
     let rows := nearby_rows lon lat radius_meters session in
     let out := map (nearby_row lon lat) rows in
     Return {| status := "success";
               count := List.length out;
               radius_km := radius_km;
               data := out |})
    is_Exception
    (fun exc => Raise (HTTPException 500 (str_of_exn exc))).

End postgis.

(** [delete_report(report_id, session, current_user)].  [report_id] is
    bound to the INTEGER column [id].  The owner read from the table is a
    [str], the requester's id an [int]. *)
Definition delete_report (report_id : Z) (session : Store)
    (current_user : User.t) : outcome status_message * Store :=
  http_or_500
    (match sql.bind_int4 report_id with
     | Raise e => (Raise e, session)
     | Return rid =>
         let owner_row :=
           find (fun r => Report.id r =? rid) (reports session) in
         match owner_row with
         | None => (Raise (HTTPException 404 "Report not found"), session)
         | Some row =>
             if value_ne (Str (Report.user_id row))
                         (Int (User.id current_user))
             then (Raise (HTTPException 403
                            "You can only delete your own reports"),
                   session)
             else
               (Return
                  {| py.status := "success";
                     py.message := "Report " ++ str_of_int report_id
                                   ++ " deleted successfully" |},
                with_reports
                  (filter (fun r => negb (Report.id r =? rid))
                          (reports session))
                  session)
         end
     end).

End reports.

(* ===================================================================== *)
(** ** app/routers/users.py                                               *)
(* ===================================================================== *)

Module users.

(** [avatar_path.split('/')[-1]]: what follows the last slash. *)
Fixpoint last_segment (acc s : string) : string :=
  match s with
  | EmptyString => acc
  | String a s' =>
      if Ascii.eqb a "/" then last_segment EmptyString s'
      else last_segment (acc ++ String a EmptyString) s'
  end.

(** [build_avatar_url(request, avatar_path)]. *)
Definition build_avatar_url (avatar_path : option string) : option string :=
  match avatar_path with
  | None => None
  | Some EmptyString => None
  | Some path =>
      if startswith path "http" then Some path
      else
        let base_url := "https://slaphappy-sylas-museful.ngrok-free.dev" in
        Some (base_url ++ "/static/uploads/" ++ last_segment EmptyString path)
  end.

(** The handlers of this router are plain [def]s whose [session] is the
    [AsyncSession] of the request. *)


(** [get_user(user_id, session, request)].  [session.get(User, user_id)]
    is not awaited, so [user] is a coroutine object: it is true, which
    skips the 404, and reading [user.avatar_url] raises. *)
Definition get_user (user_id : Z) (session : Store) : outcome User.t :=
  let user := database.get user_id session in
  if negb (database.truthy user)
  then Raise (HTTPException 404 "User not found")
  else
    avatar_url <- database.getattr user "avatar_url" ;;
    match avatar_url return outcome User.t with end.


(** [delete_user(user_id, session)].  [session.delete(user)] and
    [session.commit()] are not awaited and do nothing; building the message
    of the answer reads [user.username], which raises. *)
Definition delete_user (user_id : Z) (session : Store)
    : outcome status_message * Store :=
  let user := database.get user_id session in
  if negb (database.truthy user)
  then (Raise (HTTPException 404 "User not found"), session)
  else
    let session := database.delete user session in
    let session := database.commit session in
    match database.getattr user "username" with
    | Raise e => (Raise e, session)
    | Return username => match username with end
    end.

End users.

(* ===================================================================== *)
(** ** app/routers/auth.py                                                *)
(* ===================================================================== *)

Module auth.

(** The answer of [login]. *)
Record TokenResponse := mkTokenResponse {
  access_token : jose.token;
  token_type : string
}.

(** An uploaded file of a multipart request. *)
Record UploadFile := mkUploadFile {
  filename : string;
  contents : string
}.

(** [get_current_user(token, session)], the handler of [GET /me], which
    [update_current_user_profile] also uses as its dependency. *)
Definition get_current_user (now : Z) (token : jose.token) (session : Store)
    : outcome User.t :=
  payload <- security.decode_access_token now token ;;
  if negb (dict_truthy payload) || negb (dict_contains "sub" payload)
  then Raise (HTTPException 401 "Invalid or expired token")
  else
    let username := dict_get "sub" payload in
    match auth_user.first_user_by_subject username session with
    | None => Raise (HTTPException 404 "User not found")
    | Some user => Return user
    end.

Section crypt.

Variable bcrypt_digest : string -> string -> string.

(** [register_user(user_data, session)] at the instant [now], with the
    salt passlib draws. *)
Definition register_user (salt : string) (now : Z) (user_data : UserCreate.t)
    (session : Store) : outcome User.t * Store :=
  match first_user_by_username (UserCreate.username user_data) session with
  | Some _ =>
      (Raise (HTTPException 400 "Username already exists"), session)
  | None =>
      match security.hash_password bcrypt_digest salt
              (UserCreate.password user_data) with
      | Raise e => (Raise e, session)
      | Return hashed_pw =>
          let new_user := fun id =>
            {| User.id := id;
               User.username := UserCreate.username user_data;
               User.email := UserCreate.email user_data;
               User.password_hash := hashed_pw;
               User.name := UserCreate.name user_data;
               User.avatar_url := UserCreate.avatar_url user_data;
               User.bio := UserCreate.bio user_data;
               User.joined_at := now;
               User.is_active := true |} in
          match insert_user new_user session with
          | (Return new_user, session') => (Return new_user, session')
          | (Raise e, session') =>
              if is_IntegrityError e
              then (Raise (HTTPException 400
                             "Username or email already exists"), session')
              else (Raise e, session')
          end
      end
  end.

(** [login(form_data, session)] at the instant [now]. *)
Definition login (now : Z) (username password : string) (session : Store)
    : outcome TokenResponse :=
  let invalid := HTTPException 401 "Invalid username or password" in
  match first_user_by_username username session with
  | None => Raise invalid
  | Some user =>
      ok <- security.verify_password bcrypt_digest password
              (User.password_hash user) ;;
      if negb ok then Raise invalid
      else
        let token_expires := security.ACCESS_TOKEN_EXPIRE_MINUTES * 60 in
        let token :=
          security.create_access_token now
            [("sub", Str (User.username user))] (Some token_expires) in
        Return {| access_token := token; token_type := "bearer" |}
  end.

End crypt.

Section upload.

(** [Path(name).suffix]. *)
Variable Path_suffix : string -> string.

(** [update_current_user_profile(name, bio, avatar, avatar_url, session,
    current_user)].  [token_hex] is the value of [secrets.token_hex(12)]
    and [write_ok] tells whether the file could be written.  [current_user]
    is the row that the dependency loaded in this session; the commit and
    the refresh are awaited. *)
Definition update_current_user_profile (token_hex : string) (write_ok : bool)
    (name bio : option string) (avatar avatar_url : option UploadFile)
    (session : Store) (current_user : User.t) : outcome User.t * Store :=
  let update_data :=
    (match name with Some n => [(attr_name, n)] | None => [] end
     ++ match bio with Some b => [(attr_bio, b)] | None => [] end)%list in
  let uploaded_file :=
    match avatar with Some f => Some f | None => avatar_url end in
  let saved :=
    match uploaded_file with
    | None => Return update_data
    | Some f =>
        let safe_name := token_hex ++ Path_suffix (filename f) in
        if write_ok
        then Return (update_data
                     ++ [(attr_avatar_url,
                          ("/static/uploads/" ++ safe_name)%string)])%list
        else Raise (HTTPException 500
                      ("Failed to save uploaded file: " ++ str_of_exn OSError))
    end in
  match saved with
  | Raise e => (Raise e, session)
  | Return [] => (Raise (HTTPException 400 "No fields provided"), session)
  | Return update_data =>
      (Return (setattrs current_user update_data),
       update_user_columns (User.id current_user) update_data session)
  end.

End upload.

End auth.

(* ===================================================================== *)
(** ** The routes as FastAPI serves them                                *)
(* ===================================================================== *)

(** For a request FastAPI first resolves the dependencies declared with
    [Depends] (an exception raised there ends the request), then validates
    the path, query and body parameters against their schemas (a failure is
    a [RequestValidationError]), and only then calls the handler.
    [authorization] is the bearer token of the request, if it has one. *)
Module main.

(** POST /api/reports/ *)
Definition post_report (now : Z) (authorization : option jose.token)
    (body : ReportCreate.t) (session : Store)
    : outcome ReportRead.t * Store :=
  match auth_user.current_user_dependency now authorization session with
  | Raise e => (Raise e, session)
  | Return current_user =>
      match ReportCreate.validate body with
      | [] => reports.submit_report body session current_user
      | errors => (Raise (RequestValidationError errors), session)
      end
  end.

(** DELETE /api/reports/{report_id} *)
Definition delete_report (now : Z) (authorization : option jose.token)
    (report_id : Z) (session : Store) : outcome status_message * Store :=
  match auth_user.current_user_dependency now authorization session with
  | Raise e => (Raise e, session)
  | Return current_user =>
      reports.delete_report report_id session current_user
  end.

(** GET /api/auth/me *)
Definition get_me (now : Z) (authorization : option jose.token)
    (session : Store) : outcome User.t :=
  token <- auth_user.oauth2_scheme authorization ;;
  auth.get_current_user now token session.

(** PUT /api/auth/me *)
Definition put_me (Path_suffix : string -> string) (token_hex : string)
    (write_ok : bool) (now : Z) (authorization : option jose.token)
    (name bio : option string) (avatar avatar_url : option auth.UploadFile)
    (session : Store) : outcome User.t * Store :=
  match get_me now authorization session with
  | Raise e => (Raise e, session)
  | Return current_user =>
      auth.update_current_user_profile Path_suffix token_hex write_ok
        name bio avatar avatar_url session current_user
  end.



(** DELETE /api/users/{user_id} *)
Definition delete_user (authorization : option jose.token) (user_id : Z)
    (session : Store) : outcome status_message * Store :=
  users.delete_user user_id session.


End main.

(* ===================================================================== *)
(** ** app/crud.py                                                        *)
(* ===================================================================== *)

Module crud.

Section postgis.

Variable ST_DWithin : Point -> Point -> Q -> bool.

(** [get_reports_nearby(db, lat, lon, radius_meters)]: the rows within the
    distance, cut by [LIMIT 50].  The statement has no [ORDER BY]; the rows
    are taken in heap order. *)
Definition get_reports_nearby (db : Store) (lat lon : Q) (radius_meters : Z)
    : list Report.t :=
  let user_location := ST_MakePoint lon lat in
  firstn 50
    (filter (fun r => ST_DWithin (Report.location r) user_location
                        (inject_Z radius_meters))
            (reports db)).

End postgis.

End crud.

(* ===================================================================== *)
(** ** Vocabulary of the properties and sample data                       *)
(* ===================================================================== *)

Module token_kinds.

(** The three ways a bearer token can be invalid: it is not a JWS at all,
    its signature was not made with the service's key, or it is a token of
    the service whose expiration instant has passed. *)
Inductive invalid_token (now : Z) : jose.token -> Prop :=
| invalid_structure : forall raw, invalid_token now (jose.Opaque raw)
| invalid_signature : forall alg claims key,
    key <> security.SECRET_KEY ->
    invalid_token now (jose.Jws alg claims key)
| invalid_expired : forall claims exp,
    dict_get "exp" claims = Some (Int exp) ->
    exp < now ->
    invalid_token now
      (jose.Jws security.ALGORITHM claims security.SECRET_KEY).

(** The registered claims that [jwt.decode] validates besides [exp] and
    [sub].  The payloads the service issues carry none of them. *)
Definition other_validated_claims : list string :=
  ["iat"; "nbf"; "aud"; "jti"; "at_hash"].

Definition carries_none (keys : list string) (data : dict) : Prop :=
  forall k, In k keys -> dict_get k data = None.

(** A token that the service reads at the instant [now]: it is decoded,
    and its payload carries none of those claims. *)
Definition readable (now : Z) (token : jose.token) : Prop :=
  exists payload,
    security.decode_access_token now token = Return payload /\
    carries_none other_validated_claims payload.

End token_kinds.

(** Finite enumerations of strings, for counting checksums. *)
Module counting.



(** The string made of [n] times the character [c]. *)
Fixpoint repeat_char (c : ascii) (n : nat) : string :=
  match n with
  | O => EmptyString
  | S n' => String c (repeat_char c n')
  end.

End counting.

(** The clauses of the nearby query as relations on rows. *)
Module query_terms.

(** [a] comes no later than [b] under
    [ORDER BY place_name, "timestamp" DESC]. *)
Definition ordered (a b : Report.t) : Prop :=
  reports.by_place_then_latest a b = true.

(** [prev], the place read last, is not after any place still to come. *)
Definition not_after (prev : option string) (l : list Report.t) : Prop :=
  forall k r, prev = Some k -> In r l ->
              String.compare k (Report.place_name r) <> Gt.

(** [r] passes the [WHERE] clause of the query. *)
Definition selected (ST_DWithin : Point -> Point -> Q -> bool)
    (lon lat radius_meters : Q) (r : Report.t) : Prop :=
  ST_DWithin (Report.location r) (ST_MakePoint lon lat) radius_meters = true.

End query_terms.

(** File names. *)
Module invariants.

(** A file name: a string without a slash. *)
Fixpoint no_slash (s : string) : bool :=
  match s with
  | EmptyString => true
  | String a s' => negb (Ascii.eqb a "/") && no_slash s'
  end.

End invariants.

(** The salts and checksums that bcrypt writes. *)
Module hash_terms.

(** The alphabet of bcrypt's base64 encoding, in the order of the values
    0..63. *)
Definition bcrypt64 : string :=
  "./ABCDEFGHIJKLMNOPQRSTUVWXYZabcdefghijklmnopqrstuvwxyz0123456789".

Fixpoint occurs (a : ascii) (s : string) : bool :=
  match s with
  | EmptyString => false
  | String b s' => Ascii.eqb a b || occurs a s'
  end.

Fixpoint all_in (alphabet s : string) : bool :=
  match s with
  | EmptyString => true
  | String a s' => occurs a alphabet && all_in alphabet s'
  end.

(** Whether the last character of [s] is one of [allowed]. *)
Fixpoint ends_in (allowed s : string) : bool :=
  match s with
  | EmptyString => false
  | String a EmptyString => occurs a allowed
  | String _ s' => ends_in allowed s'
  end.

(** A salt as bcrypt draws it: 22 characters of the alphabet that encode
    128 bits, so the four low bits of the last character are zero. *)
Definition bcrypt_salt (salt : string) : bool :=
  passlib.salt_ok salt && all_in bcrypt64 salt && ends_in ".Oeu" salt.

(** A checksum as bcrypt writes it: 31 characters of the alphabet that
    encode 184 bits, so the two low bits of the last character are zero. *)
Definition bcrypt_checksum (chk : string) : bool :=
  passlib.checksum_ok chk && all_in bcrypt64 chk
  && ends_in ".CGKOSWaeimquy26" chk.

End hash_terms.

(** Rows and requests used to run the handlers on concrete inputs. *)
Module samples.

Definition alice : User.t :=
  {| User.id := 5; User.username := "alice"; User.email := None;
     User.password_hash := "$bcrypt-sha256$v=2,t=2b,r=12$x$y";
     User.name := None; User.avatar_url := None; User.bio := None;
     User.joined_at := 0; User.is_active := true |}.

Definition empty_store : Store := mkStore [] [] 1 1.

Definition store_with_alice : Store := mkStore [alice] [] 6 1.

(** A token of the service for alice, valid until the instant 1000. *)
Definition alice_token : jose.token :=
  jose.Jws security.ALGORITHM [("sub", Str "alice"); ("exp", Int 1000)]
    security.SECRET_KEY.

Definition cafe (crowd_status : Z) : ReportCreate.t :=
  {| ReportCreate.lat := 40; ReportCreate.lon := -73;
     ReportCreate.place_name := "Cafe X";
     ReportCreate.crowd_status := crowd_status;
     ReportCreate.decibel_level := 55;
     ReportCreate.vibe_tags := ["quiet"; "wifi"];
     ReportCreate.user_id := "5" |}.

Definition bob_signup : UserCreate.t :=
  {| UserCreate.username := "bob"; UserCreate.email := None;
     UserCreate.name := None; UserCreate.avatar_url := None;
     UserCreate.bio := None; UserCreate.password := "secret1" |}.


(** A salt and two checksums in the form bcrypt writes them, and a digest
    that tells the password "secret1" from every other. *)
Definition salt : string := "abcdefghijklmnopqrstuO".
Definition checksum_1 : string := "ABCDEFGHIJKLMNOPQRSTUVWXYZabcde".
Definition checksum_2 : string := "0123456789ABCDEFGHIJKLMNOPQRSTu".

Definition digest (salt password : string) : string :=
  if String.eqb password "secret1" then checksum_1 else checksum_2.

(** Carol, whose password is "secret1". *)
Definition carol : User.t :=
  {| User.id := 9; User.username := "carol"; User.email := None;
     User.password_hash := passlib.to_string salt checksum_1;
     User.name := None; User.avatar_url := None; User.bio := None;
     User.joined_at := 0; User.is_active := true |}.

Definition store_with_carol : Store := mkStore [carol] [] 10 1.

(** A stand-in for the two PostGIS functions on a flat map: the sum of
    the coordinate differences, and the within-distance test it
    determines. *)
Definition flat_distance (a b : Point) : Q :=
  Qplus (Qabs (Qminus (ST_X a) (ST_X b))) (Qabs (Qminus (ST_Y a) (ST_Y b))).

Definition flat_dwithin (a b : Point) (d : Q) : bool :=
  Qle_bool (flat_distance a b) d.

(** A report three units east of the origin. *)
Definition cafe_report : Report.t :=
  Report.mk 1 (ST_MakePoint 3 0) "Cafe X" 2 55 ["quiet"] "5" 10.

Definition store_with_cafe : Store := mkStore [alice] [cafe_report] 6 2.

End samples.

(* ===================================================================== *)
(** * Properties                                                          *)
(* ===================================================================== *)

(** ** Bearer tokens that jose rejects *)

Module token_facts.

Lemma validate_exp_raises_JWTError now claims e :
  jose.validate_exp now claims = Raise e -> is_JWTError e = true.
Proof.
  unfold jose.validate_exp.
  destruct (dict_get "exp" claims) as [[exp| |]|];
    try destruct (exp <? now); intros H; inversion H; reflexivity.
Qed.

Lemma validate_sub_raises_JWTError claims e :
  jose.validate_sub claims = Raise e -> is_JWTError e = true.
Proof.
  unfold jose.validate_sub.
  destruct (dict_get "sub" claims) as [[z|s|]|];
    intros H; inversion H; reflexivity.
Qed.

(** Whatever [jwt.decode] raises is a [JWTError]. *)
Lemma decode_raises_JWTError now token key algorithms e :
  jose.decode now token key algorithms = Raise e -> is_JWTError e = true.
Proof.
  destruct token as [raw|alg claims k]; simpl.
  - intros H; inversion H; reflexivity.
  - destruct (existsb (String.eqb alg) algorithms); simpl;
      [|intros H; inversion H; reflexivity].
    destruct (String.eqb k key); simpl;
      [|intros H; inversion H; reflexivity].
    destruct (jose.validate_exp now claims) as [[]|e1] eqn:Hexp; simpl.
    + destruct (jose.validate_sub claims) as [[]|e2] eqn:Hsub; simpl;
        intros H; inversion H; subst.
      eapply validate_sub_raises_JWTError; eassumption.
    + intros H; inversion H; subst.
      eapply validate_exp_raises_JWTError; eassumption.
Qed.

(** An invalid token makes [jwt.decode] raise. *)
Lemma invalid_token_decode now token :
  token_kinds.invalid_token now token ->
  exists e,
    jose.decode now token security.SECRET_KEY [security.ALGORITHM] = Raise e.
Proof.
  intros [raw|alg claims key Hkey|claims exp Hexp Hlt]; simpl.
  - eexists; reflexivity.
  - destruct (String.eqb alg security.ALGORITHM); simpl;
      [|eexists; reflexivity].
    destruct (String.eqb_spec key security.SECRET_KEY) as [->|_];
      [contradiction|simpl; eexists; reflexivity].
  - unfold jose.validate_exp. rewrite Hexp.
    apply Z.ltb_lt in Hlt. rewrite Hlt. simpl. eexists; reflexivity.
Qed.

(** [decode_access_token] hands the exception of [jwt.decode] on. *)
Lemma decode_access_token_reraises now token e :
  jose.decode now token security.SECRET_KEY [security.ALGORITHM] = Raise e ->
  security.decode_access_token now token = Raise e.
Proof.
  intros H. unfold security.decode_access_token. rewrite H. simpl.
  destruct (is_JWTError e); reflexivity.
Qed.

(** An exception of the [JWTError] family that reaches FastAPI is
    answered with a 500. *)
Lemma JWTError_status {A} e :
  is_JWTError e = true -> response_status (@Raise A e) = 500.
Proof. destruct e; simpl; intros H; try discriminate; reflexivity. Qed.

End token_facts.

(** C1.  For a bearer token that is structurally invalid, badly signed or
    expired, the claim asks every authenticated operation to fail with
    401.  The code lets the [JWTError] of [decode_access_token] escape from
    the dependency: submitting or deleting a report and reading or updating
    the current user all end with that exception, which is answered with a
    500, and the 401 branch of [get_current_user] is not reached.  The
    store is left as it was. *)
Theorem invalid_token_escapes_as_server_error :
  forall now token session,
    token_kinds.invalid_token now token ->
    exists e,
      is_JWTError e = true /\
      (forall body,
          main.post_report now (Some token) body session
          = (Raise e, session)) /\
      (forall report_id,
          main.delete_report now (Some token) report_id session
          = (Raise e, session)) /\
      main.get_me now (Some token) session = Raise e /\
      (forall Path_suffix token_hex write_ok name bio avatar avatar_url,
          main.put_me Path_suffix token_hex write_ok now (Some token)
            name bio avatar avatar_url session
          = (Raise e, session)) /\
      response_status (@Raise User.t e) = 500 /\
      response_status (@Raise User.t e) <> 401.
Proof.
  intros now token session Hinv.
  destruct (token_facts.invalid_token_decode now token Hinv) as [e He].
  pose proof (token_facts.decode_raises_JWTError _ _ _ _ _ He) as Hjwt.
  pose proof (token_facts.decode_access_token_reraises _ _ _ He) as Hdec.
  assert (Hdep : auth_user.current_user_dependency now (Some token) session
                 = Raise e).
  { unfold auth_user.current_user_dependency, auth_user.get_current_user.
    simpl. rewrite Hdec. reflexivity. }
  assert (Hme : main.get_me now (Some token) session = Raise e).
  { unfold main.get_me, auth.get_current_user. simpl. rewrite Hdec.
    reflexivity. }
  exists e. repeat split.
  - exact Hjwt.
  - intros body. unfold main.post_report. rewrite Hdep. reflexivity.
  - intros report_id. unfold main.delete_report. rewrite Hdep. reflexivity.
  - exact Hme.
  - intros. unfold main.put_me. rewrite Hme. reflexivity.
  - apply token_facts.JWTError_status; exact Hjwt.
  - rewrite (token_facts.JWTError_status e Hjwt). discriminate.
Qed.

(** A malformed token on [DELETE /api/reports/1]. *)
Lemma invalid_token_escapes_as_server_error_witness :
  token_kinds.invalid_token 0 (jose.Opaque "garbage") /\
  exists e,
    main.delete_report 0 (Some (jose.Opaque "garbage")) 1
      samples.empty_store = (Raise e, samples.empty_store) /\
    response_status (@Raise User.t e) = 500.
Proof.
  split; [constructor|].
  destruct (invalid_token_escapes_as_server_error 0 (jose.Opaque "garbage")
              samples.empty_store
              (token_kinds.invalid_structure 0 "garbage"))
    as [e [_ [_ [Hdel [_ [_ [Hst _]]]]]]].
  exists e. split; [apply Hdel | exact Hst].
Defined.

(** ** The dependency of the report routes *)

Module dependency_facts.

(** Whatever [decode_access_token] raises is a [JWTError]. *)
Lemma decode_access_token_raises now token e :
  security.decode_access_token now token = Raise e -> is_JWTError e = true.
Proof.
  unfold security.decode_access_token.
  destruct (jose.decode now token security.SECRET_KEY [security.ALGORITHM])
    as [payload|e'] eqn:Hdec; simpl; [discriminate|].
  pose proof (token_facts.decode_raises_JWTError _ _ _ _ _ Hdec) as Hjwt.
  rewrite Hjwt. intros H. inversion H; subst. exact Hjwt.
Qed.

(** A payload with a subject is not empty. *)
Lemma subject_present payload :
  dict_get "sub" payload <> None ->
  dict_truthy payload = true /\ dict_contains "sub" payload = true.
Proof.
  intros H. split.
  - destruct payload; [contradiction H; reflexivity|reflexivity].
  - unfold dict_contains. destruct (dict_get "sub" payload);
      [reflexivity|contradiction H; reflexivity].
Qed.

Lemma subject_absent payload :
  dict_get "sub" payload = None ->
  negb (dict_truthy payload) || negb (dict_contains "sub" payload) = true.
Proof.
  intros H. unfold dict_contains. rewrite H. simpl. apply orb_true_r.
Qed.

(** What [get_current_user] does with a token: it hands on the exception
    of [decode_access_token], or refuses a payload without a subject with
    401, or fails at [session.exec].  It does not return. *)
Lemma get_current_user_cases now token session :
  (exists e,
      security.decode_access_token now token = Raise e /\
      auth_user.get_current_user now token session = Raise e) \/
  (exists payload,
      security.decode_access_token now token = Return payload /\
      dict_get "sub" payload = None /\
      auth_user.get_current_user now token session
      = Raise (HTTPException 401 "Invalid or expired authentication token"))
  \/
  (exists payload,
      security.decode_access_token now token = Return payload /\
      dict_get "sub" payload <> None /\
      auth_user.get_current_user now token session
      = Raise (AttributeError
                 "'AsyncSession' object has no attribute 'exec'")).
Proof.
  unfold auth_user.get_current_user.
  destruct (security.decode_access_token now token) as [payload|e] eqn:Hdec.
  - right. simpl.
    destruct (dict_get "sub" payload) as [v|] eqn:Hsub.
    + right. exists payload. split; [reflexivity|].
      split; [rewrite Hsub; discriminate|].
      destruct (subject_present payload) as [Ht Hc];
        [rewrite Hsub; discriminate|].
      rewrite Ht, Hc. reflexivity.
    + left. exists payload. split; [reflexivity|]. split; [exact Hsub|].
      rewrite (subject_absent payload Hsub). reflexivity.
  - left. exists e. split; reflexivity.
Qed.

(** The dependency of a request never produces a user: it raises, and
    what it raises is answered with 401 or with 500 and is not a
    validation error. *)
Lemma current_user_dependency_raises now authorization session :
  exists e,
    auth_user.current_user_dependency now authorization session = Raise e /\
    is_RequestValidationError e = false /\
    forall A, response_status (@Raise A e) = 401
              \/ response_status (@Raise A e) = 500.
Proof.
  unfold auth_user.current_user_dependency.
  destruct authorization as [token|]; simpl.
  - destruct (get_current_user_cases now token session)
      as [[e [Hdec ->]]|[[payload [_ [_ ->]]]|[payload [_ [_ ->]]]]].
    + exists e. split; [reflexivity|].
      pose proof (decode_access_token_raises _ _ _ Hdec) as Hjwt.
      destruct e; simpl in Hjwt; try discriminate Hjwt;
        (split; [reflexivity|intros A; right; reflexivity]).
    + eexists. split; [reflexivity|]. split; [reflexivity|].
      intros A. left. reflexivity.
    + eexists. split; [reflexivity|]. split; [reflexivity|].
      intros A. right. reflexivity.
  - eexists. split; [reflexivity|]. split; [reflexivity|].
    intros A. left. reflexivity.
Qed.

(** With a token that decodes and carries a subject, the dependency fails
    at [session.exec]. *)
Lemma current_user_dependency_with_subject now token payload session :
  security.decode_access_token now token = Return payload ->
  dict_get "sub" payload <> None ->
  auth_user.current_user_dependency now (Some token) session
  = Raise (AttributeError "'AsyncSession' object has no attribute 'exec'").
Proof.
  intros Hdec Hsub. unfold auth_user.current_user_dependency. simpl.
  destruct (get_current_user_cases now token session)
    as [[e [Hdec' _]]|[[payload' [Hdec' [Hsub' _]]]|[payload' [_ [_ H]]]]].
  - rewrite Hdec in Hdec'. discriminate Hdec'.
  - rewrite Hdec in Hdec'. inversion Hdec'; subst. contradiction.
  - exact H.
Qed.

End dependency_facts.

(** ** Deleting a report *)

Module delete_facts.

(** A [str] never equals an [int]. *)
Lemma str_ne_int s z : value_ne (Str s) (Int z) = true.
Proof. reflexivity. Qed.

(** The handler itself, called with a user: it answers 500 for an id that
    does not fit the column, 404 for an id that is not in the table and 403
    for one that is, whoever the user is; it deletes nothing. *)
Lemma delete_report_handler report_id session current_user :
  snd (reports.delete_report report_id session current_user) = session /\
  (sql.int32 report_id = false ->
   response_status
     (fst (reports.delete_report report_id session current_user)) = 500) /\
  (sql.int32 report_id = true ->
   find (fun r => Report.id r =? report_id) (reports session) = None ->
   fst (reports.delete_report report_id session current_user)
   = Raise (HTTPException 404 "Report not found")) /\
  (forall row,
      sql.int32 report_id = true ->
      find (fun r => Report.id r =? report_id) (reports session) = Some row ->
      fst (reports.delete_report report_id session current_user)
      = Raise (HTTPException 403 "You can only delete your own reports")).
Proof.
  unfold reports.delete_report, sql.bind_int4.
  destruct (sql.int32 report_id); simpl.
  - destruct (find (fun r => Report.id r =? report_id) (reports session))
      as [row|] eqn:Hfind; simpl.
    + split; [reflexivity|]. split; [discriminate|].
      split; [discriminate|]. intros row' _ _. reflexivity.
    + split; [reflexivity|]. split; [discriminate|].
      split; [reflexivity|]. intros row' _ H. discriminate H.
  - split; [reflexivity|]. split; [reflexivity|].
    split; [discriminate|]. intros row' H. discriminate H.
Qed.

End delete_facts.

(** C2.  The claim asks that a missing report gives NotFound, another
    user's report Forbidden, and that the owner's request deletes the
    report.  [DELETE /api/reports/{report_id}] resolves the requester with
    [get_current_user] of dependencies/auth_user.py, which never returns a
    user: for every request the route answers 401 or 500 and leaves the
    store as it was, so a report that exists is still found afterwards; and
    with a token that decodes and carries a subject (and none of the
    other claims jose validates), the owner's token included, the answer is
    the [AttributeError] of [session.exec], a 500.
    The handler behind the dependency would not delete either: the owner
    column of [report] is a [str] and the requester's id an [int], so for
    every user it answers 403 for a report that exists (and 404 for one
    that does not, and 500 for an id that does not fit the INTEGER
    column). *)
Theorem delete_report_never_deletes :
  forall now authorization report_id session,
    snd (main.delete_report now authorization report_id session) = session /\
    (response_status
       (fst (main.delete_report now authorization report_id session)) = 401
     \/ response_status
          (fst (main.delete_report now authorization report_id session))
        = 500) /\
    (forall row,
        find (fun r => Report.id r =? report_id) (reports session)
        = Some row ->
        find (fun r => Report.id r =? report_id)
             (reports
                (snd (main.delete_report now authorization report_id
                        session))) = Some row) /\
    (forall token payload,
        authorization = Some token ->
        security.decode_access_token now token = Return payload ->
        token_kinds.carries_none token_kinds.other_validated_claims payload ->
        dict_get "sub" payload <> None ->
        exists msg,
          fst (main.delete_report now authorization report_id session)
          = Raise (AttributeError msg)) /\
    (forall current_user,
        snd (reports.delete_report report_id session current_user) = session
        /\
        (sql.int32 report_id = true ->
         fst (reports.delete_report report_id session current_user)
         = match find (fun r => Report.id r =? report_id) (reports session)
           with
           | Some _ =>
               Raise (HTTPException 403
                        "You can only delete your own reports")
           | None => Raise (HTTPException 404 "Report not found")
           end) /\
        (sql.int32 report_id = false ->
         response_status
           (fst (reports.delete_report report_id session current_user))
         = 500)).
Proof.
  intros now authorization report_id session.
  unfold main.delete_report.
  destruct (dependency_facts.current_user_dependency_raises now authorization
              session) as [e [Hdep [_ Hstatus]]].
  rewrite Hdep. simpl. split; [reflexivity|].
  split; [apply (Hstatus status_message)|].
  split; [intros row H; exact H|].
  split.
  - intros token payload -> Hdec _ Hsub.
    rewrite (dependency_facts.current_user_dependency_with_subject _ _ _ _
               Hdec Hsub) in Hdep.
    inversion Hdep; subst. eexists; reflexivity.
  - intros current_user.
    destruct (delete_facts.delete_report_handler report_id session
                current_user) as [Hstore [Hwide [Hnone Hsome]]].
    split; [exact Hstore|]. split; [|exact Hwide]. intros Hid.
    destruct (find (fun r => Report.id r =? report_id) (reports session))
      as [row|] eqn:Hfind.
    + apply (Hsome row Hid eq_refl).
    + apply (Hnone Hid eq_refl).
Qed.

(** Report 1 is alice's; her token is good at the instant 20, as
    [GET /api/auth/me] shows; her request to delete the report is answered
    with the [AttributeError] and the report stays.  Handed alice, the
    handler answers 403. *)
Lemma delete_report_never_deletes_witness :
  find (fun r => Report.id r =? 1) (reports samples.store_with_cafe)
  = Some samples.cafe_report /\
  Report.user_id samples.cafe_report = str_of_int (User.id samples.alice) /\
  main.get_me 20 (Some samples.alice_token) samples.store_with_cafe
  = Return samples.alice /\
  (exists msg,
      fst (main.delete_report 20 (Some samples.alice_token) 1
             samples.store_with_cafe) = Raise (AttributeError msg)) /\
  find (fun r => Report.id r =? 1)
       (reports (snd (main.delete_report 20 (Some samples.alice_token) 1
                        samples.store_with_cafe)))
  = Some samples.cafe_report /\
  fst (reports.delete_report 1 samples.store_with_cafe samples.alice)
  = Raise (HTTPException 403 "You can only delete your own reports").
Proof.
  destruct (delete_report_never_deletes 20 (Some samples.alice_token) 1
              samples.store_with_cafe) as [_ [_ [Hkept [Hraise Hhandler]]]].
  split; [reflexivity|]. split; [reflexivity|]. split; [reflexivity|].
  split; [|split].
  - apply (Hraise samples.alice_token
             [("sub", Str "alice"); ("exp", Int 1000)] eq_refl eq_refl).
    + intros k Hk. simpl in Hk.
      repeat (destruct Hk as [<-|Hk]; [reflexivity|]). destruct Hk.
    + discriminate.
  - apply Hkept. reflexivity.
  - apply (proj1 (proj2 (Hhandler samples.alice))). reflexivity.
Defined.

(** ** Rows of the [user] table *)

Module user_facts.

Lemma find_app_none {A} (f : A -> bool) (l : list A) (x : A) :
  find f l = None -> find f (l ++ [x]) = if f x then Some x else None.
Proof.
  induction l as [|y l IH]; simpl; [reflexivity|].
  destruct (f y); [discriminate|exact IH].
Qed.

Lemma find_none_existsb {A} (f : A -> bool) (l : list A) :
  find f l = None -> existsb f l = false.
Proof.
  induction l as [|y l IH]; simpl; [reflexivity|].
  destruct (f y); [discriminate|exact IH].
Qed.

(** With a username that is not taken and an email that is not taken,
    the INSERT of a user goes through and appends the row. *)
Lemma insert_user_fresh mk_row session :
  first_user_by_username (User.username (mk_row (user_id_seq session)))
    session = None ->
  existsb (fun o => option_string_eqb (User.email o)
                      (User.email (mk_row (user_id_seq session))))
          (users session) = false ->
  insert_user mk_row session
  = (Return (mk_row (user_id_seq session)),
     mkStore (users session ++ [mk_row (user_id_seq session)])
             (reports session) (user_id_seq session + 1)
             (report_id_seq session)).
Proof.
  intros Hname Hemail. unfold insert_user, unique_violation.
  unfold first_user_by_username in Hname.
  rewrite (find_none_existsb _ _ Hname), Hemail. reflexivity.
Qed.

End user_facts.

(** ** Password hashes *)

Module hash_facts.

Lemma strip_prefix_app p r : strip_prefix p (p ++ r) = Some r.
Proof.
  induction p as [|a p IH]; simpl; [reflexivity|].
  rewrite Ascii.eqb_refl. exact IH.
Qed.

Lemma append_assoc (a b c : string) : (a ++ b) ++ c = a ++ (b ++ c).
Proof.
  induction a as [|x a IH]; simpl; [reflexivity|]. rewrite IH. reflexivity.
Qed.

Lemma split_at_app a b : split_at (String.length a) (a ++ b) = Some (a, b).
Proof.
  induction a as [|c a IH]; simpl; [reflexivity|].
  rewrite IH. reflexivity.
Qed.

Lemma salt_ok_length salt :
  passlib.salt_ok salt = true -> String.length salt = 22%nat.
Proof.
  unfold passlib.salt_ok. intros H.
  apply andb_true_iff in H. destruct H as [H _].
  apply Nat.eqb_eq in H. exact H.
Qed.

(** A hash string written by the handler is recognised by the context. *)
Lemma identify_to_string salt chk :
  passlib.identify (passlib.to_string salt chk) = true.
Proof. reflexivity. Qed.

(** Reading back a hash string gives the salt and checksum it was written
    from. *)
Lemma from_string_to_string salt chk :
  passlib.salt_ok salt = true ->
  passlib.checksum_ok chk = true ->
  passlib.from_string (passlib.to_string salt chk) = Some (salt, chk).
Proof.
  intros Hsalt Hchk.
  unfold passlib.from_string, passlib.to_string.
  rewrite <- append_assoc, strip_prefix_app.
  rewrite <- (salt_ok_length salt Hsalt), split_at_app.
  simpl. rewrite Hsalt, Hchk. reflexivity.
Qed.

Lemma validate_secret_ok secret :
  (String.length secret <= passlib.MAX_PASSWORD_SIZE)%nat ->
  passlib.validate_secret secret = Return tt.
Proof.
  intros H. unfold passlib.validate_secret.
  apply Nat.leb_le in H. rewrite H. reflexivity.
Qed.

Lemma validate_secret_too_long secret :
  (passlib.MAX_PASSWORD_SIZE < String.length secret)%nat ->
  passlib.validate_secret secret = Raise PasswordSizeError.
Proof.
  intros H. unfold passlib.validate_secret.
  apply Nat.leb_gt in H. rewrite H. reflexivity.
Qed.

Section crypt.

Variable bcrypt_digest : string -> string -> string.

(** What [hash_password] returns for a password within the size limit. *)
Lemma hash_password_value salt password :
  (String.length password <= passlib.MAX_PASSWORD_SIZE)%nat ->
  security.hash_password bcrypt_digest salt password
  = Return (passlib.to_string salt (bcrypt_digest salt password)).
Proof.
  intros H.
  unfold security.hash_password, passlib.CryptContext_hash,
    passlib.handler_hash.
  rewrite (validate_secret_ok _ H). reflexivity.
Qed.

(** What [verify_password] returns against a hash written by the
    handler, for a candidate within the size limit: the comparison of the
    two checksums. *)
Lemma verify_password_value salt chk plain :
  passlib.salt_ok salt = true ->
  passlib.checksum_ok chk = true ->
  (String.length plain <= passlib.MAX_PASSWORD_SIZE)%nat ->
  security.verify_password bcrypt_digest plain (passlib.to_string salt chk)
  = Return (String.eqb (bcrypt_digest salt plain) chk).
Proof.
  intros Hsalt Hchk Hlen.
  unfold security.verify_password, passlib.CryptContext_verify.
  rewrite identify_to_string.
  unfold passlib.handler_verify.
  rewrite (validate_secret_ok _ Hlen). simpl.
  rewrite (from_string_to_string _ _ Hsalt Hchk). reflexivity.
Qed.

(** A stored value that does not start with the identifier of the scheme
    makes [verify_password] raise, whatever the candidate password. *)
Lemma verify_password_unidentified plain hashed :
  passlib.identify hashed = false ->
  security.verify_password bcrypt_digest plain hashed
  = Raise UnknownHashError.
Proof.
  intros H. unfold security.verify_password, passlib.CryptContext_verify.
  rewrite H. reflexivity.
Qed.

End crypt.

End hash_facts.

(** ** Registering a user *)

Module register_facts.

Section crypt.

Variable bcrypt_digest : string -> string -> string.

(** What a successful registration leaves in the store. *)
Lemma register_user_success salt now user_data session user session' :
  auth.register_user bcrypt_digest salt now user_data session
  = (Return user, session') ->
  (String.length (UserCreate.password user_data)
   <= passlib.MAX_PASSWORD_SIZE)%nat /\
  User.username user = UserCreate.username user_data /\
  User.password_hash user
  = passlib.to_string salt
      (bcrypt_digest salt (UserCreate.password user_data)) /\
  users session' = (users session ++ [user])%list /\
  reports session' = reports session /\
  first_user_by_username (UserCreate.username user_data) session'
  = Some user.
Proof.
  unfold auth.register_user. intros Hreg.
  destruct (first_user_by_username (UserCreate.username user_data) session)
    eqn:Hfree; [discriminate Hreg|].
  assert (Hlen : (String.length (UserCreate.password user_data)
                  <= passlib.MAX_PASSWORD_SIZE)%nat).
  { destruct (Nat.leb_spec (String.length (UserCreate.password user_data))
                passlib.MAX_PASSWORD_SIZE) as [H|H]; [exact H|].
    unfold security.hash_password, passlib.CryptContext_hash,
      passlib.handler_hash in Hreg.
    rewrite (hash_facts.validate_secret_too_long _ H) in Hreg.
    discriminate Hreg. }
  rewrite (hash_facts.hash_password_value bcrypt_digest salt _ Hlen) in Hreg.
  unfold insert_user in Hreg.
  match type of Hreg with
  | context [unique_violation ?r ?l] => destruct (unique_violation r l)
  end.
  - destruct (is_IntegrityError _); discriminate Hreg.
  - inversion Hreg; subst; clear Hreg. simpl.
    repeat split; try reflexivity; [exact Hlen|].
    unfold first_user_by_username in *. simpl.
    rewrite (user_facts.find_app_none _ _ _ Hfree). simpl.
    rewrite String.eqb_refl. reflexivity.
Qed.


End crypt.

(** The assignments of the profile form leave the other columns alone. *)
Lemma setattrs_kept user update_data :
  User.id (setattrs user update_data) = User.id user /\
  User.username (setattrs user update_data) = User.username user /\
  User.email (setattrs user update_data) = User.email user /\
  User.password_hash (setattrs user update_data) = User.password_hash user /\
  User.joined_at (setattrs user update_data) = User.joined_at user /\
  User.is_active (setattrs user update_data) = User.is_active user.
Proof.
  unfold setattrs. revert user.
  induction update_data as [|kv update_data IH]; intros user; simpl.
  - repeat split.
  - destruct (IH (setattr user (fst kv) (snd kv)))
      as [H1 [H2 [H3 [H4 [H5 H6]]]]].
    rewrite H1, H2, H3, H4, H5, H6. repeat split.
Qed.




End register_facts.



(** ** Hashes that are not hashes *)

Module malformed_facts.

(** A prefix that contains [$] is not a prefix of a string without [$]. *)
Lemma strip_prefix_dollar p s :
  passlib.no_dollar p = false -> passlib.no_dollar s = true ->
  strip_prefix p s = None.
Proof.
  revert s. induction p as [|a p IH]; intros s Hp Hs; simpl in *;
    [discriminate Hp|].
  destruct s as [|b s]; [reflexivity|]. simpl in Hs.
  apply andb_true_iff in Hs. destruct Hs as [Hb Hs].
  destruct (Ascii.eqb_spec a b) as [->|_]; [|reflexivity].
  rewrite Hb in Hp. simpl in Hp. apply IH; assumption.
Qed.

(** After the identifier of the scheme, a text without [$] is not read as
    a hash. *)
Lemma from_string_no_dollar rest :
  passlib.no_dollar rest = true ->
  passlib.from_string (passlib.ident ++ rest) = None.
Proof.
  intros Hrest. unfold passlib.from_string.
  replace (passlib.ident ++ passlib.settings)
    with (passlib.ident ++ (passlib.settings ++ EmptyString)) by reflexivity.
  assert (H : forall p q s, strip_prefix (p ++ q) (p ++ s) = strip_prefix q s).
  { induction p as [|a p IH]; intros q s; simpl; [reflexivity|].
    rewrite Ascii.eqb_refl. apply IH. }
  rewrite H. rewrite strip_prefix_dollar; [reflexivity|reflexivity|exact Hrest].
Qed.

Lemma bcrypt_salt_ok salt :
  hash_terms.bcrypt_salt salt = true -> passlib.salt_ok salt = true.
Proof.
  unfold hash_terms.bcrypt_salt. intros H.
  apply andb_true_iff in H. destruct H as [H _].
  apply andb_true_iff in H. destruct H as [H _]. exact H.
Qed.

Lemma bcrypt_checksum_ok chk :
  hash_terms.bcrypt_checksum chk = true -> passlib.checksum_ok chk = true.
Proof.
  unfold hash_terms.bcrypt_checksum. intros H.
  apply andb_true_iff in H. destruct H as [H _].
  apply andb_true_iff in H. destruct H as [H _]. exact H.
Qed.

End malformed_facts.

(** C7, as amended.  [verify_password] returns a boolean, without raising,
    when the candidate has at most 4096 bytes and the hash is one that
    [hash_password] writes: the identifier and settings of the context, a
    bcrypt salt and a bcrypt checksum.  On a stored value that does not
    start with the bcrypt_sha256 identifier it does not return false but
    raises [UnknownHashError]; and on one that has the identifier followed
    by a text without any [$] it raises [MalformedHashError]. *)
Theorem verify_password_raises_on_malformed_hash :
  forall bcrypt_digest plain hashed,
    (passlib.identify hashed = false ->
     security.verify_password bcrypt_digest plain hashed
     = Raise UnknownHashError) /\
    (forall rest,
        hashed = passlib.ident ++ rest ->
        passlib.no_dollar rest = true ->
        (String.length plain <= passlib.MAX_PASSWORD_SIZE)%nat ->
        security.verify_password bcrypt_digest plain hashed
        = Raise MalformedHashError) /\
    (forall salt chk,
        hashed = passlib.to_string salt chk ->
        hash_terms.bcrypt_salt salt = true ->
        hash_terms.bcrypt_checksum chk = true ->
        (String.length plain <= passlib.MAX_PASSWORD_SIZE)%nat ->
        security.verify_password bcrypt_digest plain hashed
        = Return (String.eqb (bcrypt_digest salt plain) chk)).
Proof.
  intros bcrypt_digest plain hashed. split; [|split].
  - apply hash_facts.verify_password_unidentified.
  - intros rest -> Hrest Hlen.
    unfold security.verify_password, passlib.CryptContext_verify.
    unfold passlib.identify, startswith.
    rewrite hash_facts.strip_prefix_app.
    unfold passlib.handler_verify.
    rewrite (hash_facts.validate_secret_ok _ Hlen). simpl bind.
    pose proof (malformed_facts.from_string_no_dollar rest Hrest) as Hfs.
    simpl append in Hfs. rewrite Hfs. reflexivity.
  - intros salt chk -> Hsalt Hchk Hlen.
    apply hash_facts.verify_password_value;
      [apply malformed_facts.bcrypt_salt_ok; exact Hsalt
      |apply malformed_facts.bcrypt_checksum_ok; exact Hchk
      |exact Hlen].
Qed.

(** A password kept as typed, a text with the identifier only, and a hash
    of "secret1" checked against "secret1" and against another password. *)
Lemma verify_password_raises_on_malformed_hash_witness :
  security.verify_password samples.digest "secret1" "secret1"
  = Raise UnknownHashError /\
  security.verify_password samples.digest "secret1" "$bcrypt-sha256$secret1"
  = Raise MalformedHashError /\
  security.verify_password samples.digest "secret1"
    (passlib.to_string samples.salt samples.checksum_1) = Return true /\
  security.verify_password samples.digest "secret2"
    (passlib.to_string samples.salt samples.checksum_1) = Return false.
Proof.
  assert (Hlen : forall p, (String.length p <= 7)%nat ->
                 (String.length p <= passlib.MAX_PASSWORD_SIZE)%nat)
    by (intros p H; unfold passlib.MAX_PASSWORD_SIZE; lia).
  split; [|split; [|split]].
  - apply (verify_password_raises_on_malformed_hash samples.digest
             "secret1" "secret1"). reflexivity.
  - apply (proj1 (proj2 (verify_password_raises_on_malformed_hash
                           samples.digest "secret1"
                           "$bcrypt-sha256$secret1")) "secret1");
      [reflexivity|reflexivity|apply Hlen; simpl; lia].
  - apply (proj2 (proj2 (verify_password_raises_on_malformed_hash
                           samples.digest "secret1"
                           (passlib.to_string samples.salt
                              samples.checksum_1)))
             samples.salt samples.checksum_1);
      [reflexivity|reflexivity|reflexivity|apply Hlen; simpl; lia].
  - apply (proj2 (proj2 (verify_password_raises_on_malformed_hash
                           samples.digest "secret2"
                           (passlib.to_string samples.salt
                              samples.checksum_1)))
             samples.salt samples.checksum_1);
      [reflexivity|reflexivity|reflexivity|apply Hlen; simpl; lia].
Defined.

(** C7, as stated, fails: it is not the case that [verify_password]
    returns a boolean for every plaintext and every hash string. *)
Lemma verify_password_may_raise :
  ~ (forall bcrypt_digest plain hashed,
        exists b,
          security.verify_password bcrypt_digest plain hashed = Return b).
Proof.
  intros H. destruct (H (fun _ _ => EmptyString) "secret1" "not-a-hash") as [b Hb].
  discriminate Hb.
Qed.

(** ** Counting strings of a given length *)

Module counting_facts.

Import counting.











End counting_facts.




(** ** Submitting a report *)

Module submit_facts.

(** A crowd status outside 1..3 breaks a constraint of [ReportCreate]. *)
Lemma validate_crowd_status body :
  ~ (1 <= ReportCreate.crowd_status body <= 3) ->
  In "crowd_status" (map fst (ReportCreate.validate body)).
Proof.
  intros Hout. unfold ReportCreate.validate.
  rewrite !map_app. apply in_or_app. right.
  destruct (1 <=? ReportCreate.crowd_status body) eqn:Hlo.
  - simpl. apply in_or_app. left.
    destruct (ReportCreate.crowd_status body <=? 3) eqn:Hhi.
    + exfalso. apply Hout. apply Z.leb_le in Hlo. apply Z.leb_le in Hhi.
      lia.
    + simpl. auto.
  - apply in_or_app. left. simpl. auto.
Qed.

End submit_facts.

(** C8.  The claim asks that a submission whose crowd status is outside
    1..3 be rejected with a validation error before anything is persisted.
    The body does break the schema, and nothing is persisted.  But
    [POST /api/reports/] resolves the requester first, with
    [get_current_user] of dependencies/auth_user.py, and that dependency
    never returns a user: the request is answered with 401 or with 500,
    never with the validation error, and with a token that decodes and
    carries a subject (and none of the other claims jose validates) the
    answer is the [AttributeError] of [session.exec], a 500.  The handler
    behind the dependency persists nothing either: its
    INSERT is refused and it answers 500. *)
Theorem invalid_crowd_status_is_not_answered_by_validation :
  forall now authorization body session,
    ~ (1 <= ReportCreate.crowd_status body <= 3) ->
    In "crowd_status" (map fst (ReportCreate.validate body)) /\
    snd (main.post_report now authorization body session) = session /\
    (exists e,
        fst (main.post_report now authorization body session) = Raise e /\
        is_RequestValidationError e = false) /\
    (response_status
       (fst (main.post_report now authorization body session)) = 401
     \/ response_status
          (fst (main.post_report now authorization body session)) = 500) /\
    (forall token payload,
        authorization = Some token ->
        security.decode_access_token now token = Return payload ->
        token_kinds.carries_none token_kinds.other_validated_claims payload ->
        dict_get "sub" payload <> None ->
        exists msg,
          fst (main.post_report now authorization body session)
          = Raise (AttributeError msg)) /\
    (forall current_user,
        snd (reports.submit_report body session current_user) = session /\
        response_status
          (fst (reports.submit_report body session current_user)) = 500).
Proof.
  intros now authorization body session Hout.
  split; [apply submit_facts.validate_crowd_status; exact Hout|].
  unfold main.post_report.
  destruct (dependency_facts.current_user_dependency_raises now authorization
              session) as [e [Hdep [Hval Hstatus]]].
  rewrite Hdep. simpl. split; [reflexivity|].
  split; [exists e; split; [reflexivity|exact Hval]|].
  split; [apply (Hstatus ReportRead.t)|].
  split.
  - intros token payload -> Hdec _ Hsub.
    rewrite (dependency_facts.current_user_dependency_with_subject _ _ _ _
               Hdec Hsub) in Hdep.
    inversion Hdep; subst. eexists; reflexivity.
  - intros current_user. split; reflexivity.
Qed.

(** Alice's token is good at the instant 10, as [GET /api/auth/me] shows;
    her submission with crowd status 7 is answered with the
    [AttributeError], not with a validation error. *)
Lemma invalid_crowd_status_is_not_answered_by_validation_witness :
  ~ (1 <= ReportCreate.crowd_status (samples.cafe 7) <= 3) /\
  main.get_me 10 (Some samples.alice_token) samples.store_with_alice
  = Return samples.alice /\
  (exists msg,
      fst (main.post_report 10 (Some samples.alice_token) (samples.cafe 7)
             samples.store_with_alice) = Raise (AttributeError msg)) /\
  snd (main.post_report 10 (Some samples.alice_token) (samples.cafe 7)
         samples.store_with_alice) = samples.store_with_alice.
Proof.
  assert (H : ~ (1 <= ReportCreate.crowd_status (samples.cafe 7) <= 3))
    by (simpl; lia).
  destruct (invalid_crowd_status_is_not_answered_by_validation 10
              (Some samples.alice_token) (samples.cafe 7)
              samples.store_with_alice H)
    as [_ [Hstore [_ [_ [Hraise _]]]]].
  split; [exact H|]. split; [reflexivity|]. split; [|exact Hstore].
  apply (Hraise samples.alice_token
           [("sub", Str "alice"); ("exp", Int 1000)] eq_refl eq_refl).
  - intros k Hk. simpl in Hk.
    repeat (destruct Hk as [<-|Hk]; [reflexivity|]). destruct Hk.
  - discriminate.
Defined.

(** ** Registering twice *)

(** C9.  When a registration has succeeded, every later registration with
    the same username fails with the conflict error, status 400, and
    leaves the store as it was; the first user's record is still the one
    found under that username. *)
Theorem second_registration_is_rejected :
  forall bcrypt_digest salt1 now1 first session user1 session1,
    auth.register_user bcrypt_digest salt1 now1 first session
    = (Return user1, session1) ->
    forall salt2 now2 second,
      UserCreate.username second = UserCreate.username first ->
      auth.register_user bcrypt_digest salt2 now2 second session1
      = (Raise (HTTPException 400 "Username already exists"), session1) /\
      response_status
        (fst (auth.register_user bcrypt_digest salt2 now2 second session1))
      = 400 /\
      snd (auth.register_user bcrypt_digest salt2 now2 second session1)
      = session1 /\
      In user1 (users session1) /\
      first_user_by_username (UserCreate.username first) session1
      = Some user1.
Proof.
  intros bcrypt_digest salt1 now1 first session user1 session1 Hreg
    salt2 now2 second Hname.
  assert (Hfound : first_user_by_username (UserCreate.username first)
                     session1 = Some user1 /\ In user1 (users session1)).
  { unfold auth.register_user in Hreg.
    destruct (first_user_by_username (UserCreate.username first) session)
      eqn:Hfree; [discriminate Hreg|].
    destruct (security.hash_password bcrypt_digest salt1
                (UserCreate.password first)) as [hashed_pw|e];
      [|discriminate Hreg].
    unfold insert_user in Hreg.
    match type of Hreg with
    | context [unique_violation ?r ?l] =>
        destruct (unique_violation r l)
    end.
    - destruct (is_IntegrityError _); discriminate Hreg.
    - inversion Hreg; subst; clear Hreg.
      unfold first_user_by_username in *. simpl.
      rewrite (user_facts.find_app_none _ _ _ Hfree). simpl.
      rewrite String.eqb_refl. split; [reflexivity|].
      apply in_or_app. right. simpl. auto. }
  destruct Hfound as [Hfound Hin].
  unfold auth.register_user. rewrite Hname, Hfound. simpl. auto.
Qed.

(** Bob registers twice. *)
Lemma second_registration_is_rejected_witness :
  exists user1 session1,
    auth.register_user (fun _ _ => counting.repeat_char "c" 31)
      (counting.repeat_char "s" 22) 0 samples.bob_signup
      samples.store_with_alice = (Return user1, session1) /\
    auth.register_user (fun _ _ => counting.repeat_char "c" 31)
      (counting.repeat_char "t" 22) 1 samples.bob_signup session1
    = (Raise (HTTPException 400 "Username already exists"), session1).
Proof.
  eexists. eexists. split; [reflexivity|].
  eapply (second_registration_is_rejected
            (fun _ _ => counting.repeat_char "c" 31)
            (counting.repeat_char "s" 22) 0 samples.bob_signup
            samples.store_with_alice).
  - reflexivity.
  - reflexivity.
Defined.

(** ** Updating and deleting users *)

Module users_facts.



End users_facts.




(** ** The nearby query *)

Module sql_facts.

Import query_terms.

(** *** The order on place names *)

Lemma compare_refl s : String.compare s s = Eq.
Proof.
  induction s as [|a s IH]; simpl; [reflexivity|].
  unfold Ascii.compare. rewrite N.compare_refl. exact IH.
Qed.

Lemma compare_Lt_trans a b c :
  String.compare a b = Lt -> String.compare b c = Lt ->
  String.compare a c = Lt.
Proof.
  revert b c. induction a as [|x a IH]; intros [|y b] [|z c]; simpl;
    try discriminate; try reflexivity.
  destruct (Ascii.compare x y) eqn:Hxy; try discriminate.
  - apply Ascii.compare_eq_iff in Hxy. subst y.
    destruct (Ascii.compare x z); try discriminate; [apply IH|reflexivity].
  - intros _. destruct (Ascii.compare y z) eqn:Hyz; try discriminate.
    + apply Ascii.compare_eq_iff in Hyz. subst z. rewrite Hxy. reflexivity.
    + intros _. unfold Ascii.compare in *.
      assert (H : (N_of_ascii x ?= N_of_ascii z)%N = Lt).
      { apply N.compare_lt_iff.
        apply N.lt_trans with (N_of_ascii y); apply N.compare_lt_iff;
          assumption. }
      rewrite H. reflexivity.
Qed.

Lemma compare_le_antisym a b :
  String.compare a b <> Gt -> String.compare b a <> Gt -> a = b.
Proof.
  intros Hab Hba. rewrite String.compare_antisym in Hba.
  destruct (String.compare a b) eqn:E.
  - apply String.compare_eq_iff. exact E.
  - exfalso. apply Hba. reflexivity.
  - exfalso. apply Hab. reflexivity.
Qed.

(** *** [ORDER BY place_name, "timestamp" DESC] *)

Lemma ordered_place a b :
  ordered a b ->
  String.compare (Report.place_name a) (Report.place_name b) <> Gt.
Proof.
  unfold ordered, reports.by_place_then_latest.
  destruct (String.compare _ _); intros H; discriminate.
Qed.

Lemma ordered_latest a b :
  ordered a b -> Report.place_name b = Report.place_name a ->
  Report.timestamp b <= Report.timestamp a.
Proof.
  unfold ordered, reports.by_place_then_latest. intros H Heq.
  rewrite Heq, compare_refl in H. apply Z.leb_le. exact H.
Qed.

Lemma ordered_trans a b c : ordered a b -> ordered b c -> ordered a c.
Proof.
  unfold ordered, reports.by_place_then_latest.
  destruct (String.compare (Report.place_name a) (Report.place_name b))
    eqn:Hab; try discriminate;
  destruct (String.compare (Report.place_name b) (Report.place_name c))
    eqn:Hbc; try discriminate; intros H1 H2.
  - apply String.compare_eq_iff in Hab. apply String.compare_eq_iff in Hbc.
    rewrite Hab, Hbc, compare_refl.
    apply Z.leb_le in H1. apply Z.leb_le in H2. apply Z.leb_le. lia.
  - apply String.compare_eq_iff in Hab. rewrite Hab, Hbc. reflexivity.
  - apply String.compare_eq_iff in Hbc. rewrite <- Hbc, Hab. reflexivity.
  - rewrite (compare_Lt_trans _ _ _ Hab Hbc). reflexivity.
Qed.

Lemma ordered_total a b :
  reports.by_place_then_latest a b = false -> ordered b a.
Proof.
  unfold ordered, reports.by_place_then_latest.
  rewrite (String.compare_antisym (Report.place_name b)).
  destruct (String.compare (Report.place_name a) (Report.place_name b));
    simpl; try discriminate; [|reflexivity].
  intros H. apply Z.leb_gt in H. apply Z.leb_le. lia.
Qed.

Lemma in_insert_sorted {row} (leb : row -> row -> bool) x l y :
  In y (sql.insert_sorted leb x l) <-> y = x \/ In y l.
Proof.
  induction l as [|z l IH]; simpl.
  - intuition.
  - destruct (leb x z); simpl; [intuition|]. rewrite IH. intuition.
Qed.

Lemma in_order_by {row} (leb : row -> row -> bool) l y :
  In y (sql.order_by leb l) <-> In y l.
Proof.
  induction l as [|z l IH]; simpl; [tauto|].
  rewrite in_insert_sorted, IH. intuition.
Qed.

Lemma insert_sorted_sorted x l :
  StronglySorted ordered l ->
  StronglySorted ordered
    (sql.insert_sorted reports.by_place_then_latest x l).
Proof.
  induction 1 as [|z l Hl IH Hz]; simpl.
  - constructor; constructor.
  - destruct (reports.by_place_then_latest x z) eqn:E.
    + constructor; [constructor; assumption|].
      constructor; [exact E|].
      apply Forall_forall. intros y Hy.
      rewrite Forall_forall in Hz.
      apply (ordered_trans x z y); [exact E|apply Hz; exact Hy].
    + constructor; [exact IH|].
      apply Forall_forall. intros y Hy. apply in_insert_sorted in Hy.
      destruct Hy as [->|Hy]; [apply ordered_total; exact E|].
      rewrite Forall_forall in Hz. apply Hz. exact Hy.
Qed.

Lemma order_by_sorted l :
  StronglySorted ordered (sql.order_by reports.by_place_then_latest l).
Proof.
  induction l as [|x l IH]; simpl; [constructor|].
  apply insert_sorted_sorted. exact IH.
Qed.

(** *** [DISTINCT ON (place_name)] over the ordered rows *)

Lemma distinct_on_from_spec l :
  StronglySorted ordered l ->
  forall prev, not_after prev l ->
    let out := sql.distinct_on_from Report.place_name prev l in
    (forall o, In o out -> In o l /\ prev <> Some (Report.place_name o)) /\
    NoDup (map Report.place_name out) /\
    (forall o r, In o out -> In r l ->
                 Report.place_name r = Report.place_name o ->
                 Report.timestamp r <= Report.timestamp o) /\
    (forall r, In r l -> prev <> Some (Report.place_name r) ->
               exists o, In o out /\
                         Report.place_name o = Report.place_name r).
Proof.
  induction 1 as [|x l Hl IH Hx]; intros prev Hprev; simpl.
  - repeat split; try constructor; intros; contradiction.
  - rewrite Forall_forall in Hx.
    assert (Hx' : not_after (Some (Report.place_name x)) l).
    { intros k r Hk Hr. inversion Hk; subst k.
      apply ordered_place. apply Hx. exact Hr. }
    assert (Htail : not_after prev l).
    { intros k r Hk Hr. apply (Hprev k r Hk). right. exact Hr. }
    assert (Hskip :
      forall k, prev = Some k -> String.eqb k (Report.place_name x) = true ->
      let out := sql.distinct_on_from Report.place_name prev l in
      (forall o, In o out ->
                 In o (x :: l) /\ prev <> Some (Report.place_name o)) /\
      NoDup (map Report.place_name out) /\
      (forall o r, In o out -> In r (x :: l) ->
                   Report.place_name r = Report.place_name o ->
                   Report.timestamp r <= Report.timestamp o) /\
      (forall r, In r (x :: l) -> prev <> Some (Report.place_name r) ->
                 exists o, In o out /\
                           Report.place_name o = Report.place_name r)).
    { intros k Hk Heq. apply String.eqb_eq in Heq.
      destruct (IH prev Htail) as [H1 [H2 [H3 H4]]].
      repeat split.
      - right. apply H1. exact H.
      - apply H1. exact H.
      - exact H2.
      - intros o r Ho [<-|Hr] Hname.
        + exfalso. apply (H1 o Ho). rewrite Hk, Heq, Hname. reflexivity.
        + apply H3; assumption.
      - intros r [<-|Hr] Hne.
        + exfalso. apply Hne. rewrite Hk, Heq. reflexivity.
        + apply H4; assumption. }
    assert (Hkeep :
      prev <> Some (Report.place_name x) ->
      let out :=
        x :: sql.distinct_on_from Report.place_name
               (Some (Report.place_name x)) l in
      (forall o, In o out ->
                 In o (x :: l) /\ prev <> Some (Report.place_name o)) /\
      NoDup (map Report.place_name out) /\
      (forall o r, In o out -> In r (x :: l) ->
                   Report.place_name r = Report.place_name o ->
                   Report.timestamp r <= Report.timestamp o) /\
      (forall r, In r (x :: l) -> prev <> Some (Report.place_name r) ->
                 exists o, In o out /\
                           Report.place_name o = Report.place_name r)).
    { intros Hne.
      destruct (IH (Some (Report.place_name x)) Hx') as [H1 [H2 [H3 H4]]].
      repeat split.
      - destruct H as [<-|Ho]; [left; reflexivity|].
        right. apply H1. exact Ho.
      - destruct H as [<-|Ho]; [exact Hne|].
        intros Hk. destruct (H1 o Ho) as [Hol Hox].
        apply Hox. f_equal.
        apply compare_le_antisym.
        + apply ordered_place. apply Hx. exact Hol.
        + apply (Hprev _ x Hk). left. reflexivity.
      - simpl. constructor; [|exact H2].
        intros Hin. apply in_map_iff in Hin.
        destruct Hin as [o [Hname Ho]].
        apply (H1 o Ho). rewrite Hname. reflexivity.
      - intros o r [<-|Ho] [<-|Hr] Hname.
        + lia.
        + apply ordered_latest; [apply Hx; exact Hr|exact Hname].
        + exfalso. apply (H1 o Ho). rewrite Hname. reflexivity.
        + apply H3; assumption.
      - intros r [<-|Hr] Hr'.
        + exists x. split; [left; reflexivity|reflexivity].
        + destruct (string_dec (Report.place_name x) (Report.place_name r))
            as [Heq|Hdiff].
          * exists x. split; [left; reflexivity|exact Heq].
          * destruct (H4 r Hr) as [o [Ho Hname]]; [congruence|].
            exists o. split; [right; exact Ho|exact Hname]. }
    destruct prev as [k|].
    + destruct (String.eqb k (Report.place_name x)) eqn:E.
      * apply (Hskip k eq_refl E).
      * apply Hkeep. apply String.eqb_neq in E. congruence.
    + apply Hkeep. discriminate.
Qed.

End sql_facts.

Module nearby_facts.

Section postgis.

Variable ST_Distance : Point -> Point -> Q.
Variable ST_DWithin : Point -> Point -> Q -> bool.

(** The rows the query returns: one per place that has a report within
    the radius, and that one is a latest report of the place within the
    radius. *)
Lemma nearby_rows_spec lon lat radius_meters session :
  let rows := reports.nearby_rows ST_DWithin lon lat radius_meters session in
  NoDup (map Report.place_name rows) /\
  (forall o, In o rows ->
     In o (reports session) /\
     query_terms.selected ST_DWithin lon lat radius_meters o /\
     forall r, In r (reports session) ->
               query_terms.selected ST_DWithin lon lat radius_meters r ->
               Report.place_name r = Report.place_name o ->
               Report.timestamp r <= Report.timestamp o) /\
  (forall r, In r (reports session) ->
             query_terms.selected ST_DWithin lon lat radius_meters r ->
     exists o, In o rows /\ Report.place_name o = Report.place_name r).
Proof.
  unfold reports.nearby_rows, sql.distinct_on, query_terms.selected.
  set (hits := filter _ (reports session)).
  assert (Hhits : forall r, In r hits <->
            In r (reports session) /\
            ST_DWithin (Report.location r) (ST_MakePoint lon lat)
              radius_meters = true).
  { intros r. unfold hits. apply filter_In. }
  destruct (sql_facts.distinct_on_from_spec
              (sql.order_by reports.by_place_then_latest hits)
              (sql_facts.order_by_sorted hits) None)
    as [H1 [H2 [H3 H4]]].
  { intros k r Hk. discriminate Hk. }
  simpl. repeat split.
  - exact H2.
  - apply Hhits. apply sql_facts.in_order_by with
      (leb := reports.by_place_then_latest). apply H1. exact H.
  - apply Hhits. apply sql_facts.in_order_by with
      (leb := reports.by_place_then_latest). apply H1. exact H.
  - intros r Hr Hsel Hname. apply H3; [exact H| |exact Hname].
    apply sql_facts.in_order_by. apply Hhits. auto.
  - intros r Hr Hsel. apply H4; [|discriminate].
    apply sql_facts.in_order_by. apply Hhits. auto.
Qed.

Lemma nearby_row_place lon lat rows :
  map reports.place_name (map (reports.nearby_row ST_Distance lon lat) rows)
  = map Report.place_name rows.
Proof. rewrite map_map. reflexivity. Qed.

(** The handler returns, and its [data] is the rendering of those rows. *)
Lemma get_nearby_reports_value lat lon radius_km session :
  reports.get_nearby_reports ST_Distance ST_DWithin lat lon radius_km session
  = Return
      {| reports.status := "success";
         reports.count :=
           List.length
             (map (reports.nearby_row ST_Distance lon lat)
                  (reports.nearby_rows ST_DWithin lon lat
                     (Qmult radius_km (inject_Z 1000)) session));
         reports.radius_km := radius_km;
         reports.data :=
           map (reports.nearby_row ST_Distance lon lat)
               (reports.nearby_rows ST_DWithin lon lat
                  (Qmult radius_km (inject_Z 1000)) session) |}.
Proof. reflexivity. Qed.

End postgis.

End nearby_facts.

(** C3.  For every table of reports, query point and radius, the nearby
    query returns (it does not fail, and) no two rows with the same place
    name.  Every returned row carries the id, the timestamp and the other
    columns of a stored report within the radius whose timestamp is maximal
    among the reports of its place within the radius, with the distance
    rounded to two decimals; and every place that has a report within the
    radius has its row, which is at least as late as that report. *)
Theorem nearby_returns_latest_report_per_place :
  forall ST_Distance ST_DWithin lat lon radius_km session,
    let within := query_terms.selected ST_DWithin lon lat
                    (Qmult radius_km (inject_Z 1000)) in
    exists response,
      reports.get_nearby_reports ST_Distance ST_DWithin lat lon radius_km
        session = Return response /\
      reports.status response = "success" /\
      reports.count response = List.length (reports.data response) /\
      reports.radius_km response = radius_km /\
      NoDup (map reports.place_name (reports.data response)) /\
      (forall row, In row (reports.data response) ->
         exists r,
           In r (reports session) /\ within r /\
           reports.id row = Report.id r /\
           reports.place_name row = Report.place_name r /\
           reports.crowd_status row = Report.crowd_status r /\
           reports.decibel_level row = Report.decibel_level r /\
           reports.vibe_tags row = Report.vibe_tags r /\
           reports.user_id row = Report.user_id r /\
           reports.timestamp row = Report.timestamp r /\
           reports.latitude row = ST_Y (Report.location r) /\
           reports.longitude row = ST_X (Report.location r) /\
           reports.distance_km row
           = reports.round2
               (Qdiv (ST_Distance (Report.location r) (ST_MakePoint lon lat))
                     (inject_Z 1000)) /\
           forall r', In r' (reports session) -> within r' ->
                      Report.place_name r' = Report.place_name r ->
                      Report.timestamp r' <= Report.timestamp r) /\
      (forall r, In r (reports session) -> within r ->
         exists row, In row (reports.data response) /\
                     reports.place_name row = Report.place_name r /\
                     Report.timestamp r <= reports.timestamp row).
Proof.
  intros ST_Distance ST_DWithin lat lon radius_km session within.
  eexists. split; [apply nearby_facts.get_nearby_reports_value|].
  destruct (nearby_facts.nearby_rows_spec ST_DWithin lon lat
              (Qmult radius_km (inject_Z 1000)) session)
    as [Hnodup [Hmax Hall]].
  simpl.
  split; [reflexivity|]. split; [reflexivity|]. split; [reflexivity|].
  split; [rewrite nearby_facts.nearby_row_place; exact Hnodup|].
  split.
  - intros row Hrow. apply in_map_iff in Hrow.
    destruct Hrow as [r [<- Hr]]. exists r.
    destruct (Hmax r Hr) as [Hin [Hsel Hlatest]].
    split; [exact Hin|]. split; [exact Hsel|].
    repeat (split; [reflexivity|]). exact Hlatest.
  - intros r Hr Hsel. destruct (Hall r Hr Hsel) as [o [Ho Hname]].
    exists (reports.nearby_row ST_Distance lon lat o).
    split; [apply in_map; exact Ho|]. split; [exact Hname|].
    simpl. destruct (Hmax o Ho) as [_ [_ Hlatest]].
    apply Hlatest; auto.
Qed.

(** C4.  When [ST_DWithin] is the inclusive test on [ST_Distance] that
    PostGIS documents, the nearby query returns no report farther from the
    query point than [radius_km * 1000] meters, and a report exactly at that
    distance passes the filter: its place has a row in the answer, and the
    row is this very report when it is the latest report of the place
    within the radius. *)
Theorem nearby_reports_are_within_radius :
  forall ST_Distance ST_DWithin,
    (forall a b d, ST_DWithin a b d = true <-> Qle (ST_Distance a b) d) ->
    forall lat lon radius_km session,
    exists response,
      reports.get_nearby_reports ST_Distance ST_DWithin lat lon radius_km
        session = Return response /\
      (forall row, In row (reports.data response) ->
         exists r,
           row = reports.nearby_row ST_Distance lon lat r /\
           In r (reports session) /\
           Qle (ST_Distance (Report.location r) (ST_MakePoint lon lat))
               (Qmult radius_km (inject_Z 1000))) /\
      (forall r, In r (reports session) ->
         Qeq (ST_Distance (Report.location r) (ST_MakePoint lon lat))
             (Qmult radius_km (inject_Z 1000)) ->
         (exists row, In row (reports.data response) /\
                      reports.place_name row = Report.place_name r /\
                      Report.timestamp r <= reports.timestamp row) /\
         ((forall r', In r' (reports session) ->
                      Report.place_name r' = Report.place_name r ->
                      r' = r) ->
          In (reports.nearby_row ST_Distance lon lat r)
             (reports.data response))).
Proof.
  intros ST_Distance ST_DWithin Hspec lat lon radius_km session.
  eexists. split; [apply nearby_facts.get_nearby_reports_value|].
  destruct (nearby_facts.nearby_rows_spec ST_DWithin lon lat
              (Qmult radius_km (inject_Z 1000)) session)
    as [Hnodup [Hmax Hall]].
  unfold query_terms.selected in *. simpl. split.
  - intros row Hrow. apply in_map_iff in Hrow.
    destruct Hrow as [r [<- Hr]]. exists r.
    destruct (Hmax r Hr) as [Hin [Hsel _]].
    repeat split; [exact Hin|]. apply Hspec. exact Hsel.
  - intros r Hr Hdist.
    assert (Hsel : ST_DWithin (Report.location r) (ST_MakePoint lon lat)
                     (Qmult radius_km (inject_Z 1000)) = true).
    { apply Hspec. rewrite Hdist. apply Qle_refl. }
    destruct (Hall r Hr Hsel) as [o [Ho Hname]].
    destruct (Hmax o Ho) as [Hin [_ Hlatest]].
    split.
    + exists (reports.nearby_row ST_Distance lon lat o).
      split; [apply in_map; exact Ho|].
      split; [exact Hname|]. simpl. apply Hlatest; auto.
    + intros Honly. rewrite <- (Honly o Hin Hname).
      apply in_map. exact Ho.
Qed.

(** On the flat map, a report exactly at the radius is returned. *)
Lemma nearby_reports_are_within_radius_witness :
  (forall a b d,
      samples.flat_dwithin a b d = true <-> Qle (samples.flat_distance a b) d)
  /\
  exists response,
    reports.get_nearby_reports samples.flat_distance samples.flat_dwithin
      0 0 (3 # 1000) samples.store_with_cafe = Return response /\
    Qeq (samples.flat_distance (Report.location samples.cafe_report)
           (ST_MakePoint 0 0))
        (Qmult (3 # 1000) (inject_Z 1000)) /\
    In (reports.nearby_row samples.flat_distance 0 0 samples.cafe_report)
       (reports.data response).
Proof.
  assert (Hspec : forall a b d,
             samples.flat_dwithin a b d = true
             <-> Qle (samples.flat_distance a b) d).
  { intros a b d. apply Qle_bool_iff. }
  split; [exact Hspec|].
  destruct (nearby_reports_are_within_radius samples.flat_distance
              samples.flat_dwithin Hspec 0 0 (3 # 1000)
              samples.store_with_cafe)
    as [response [Hrun [_ Hboundary]]].
  exists response. split; [exact Hrun|].
  assert (Hdist : Qeq (samples.flat_distance
                         (Report.location samples.cafe_report)
                         (ST_MakePoint 0 0))
                      (Qmult (3 # 1000) (inject_Z 1000)))
    by reflexivity.
  split; [exact Hdist|].
  apply (Hboundary samples.cafe_report); [left; reflexivity|exact Hdist|].
  intros r' [<-|[]] _. reflexivity.
Defined.

(* ===================================================================== *)
(** * Further properties of the code                                      *)
(* ===================================================================== *)

(** ** Issuing and reading tokens *)

Module issue_facts.



Lemma dict_set_truthy k v d : dict_truthy (dict_set k v d) = true.
Proof.
  destruct d as [|[k' v'] d]; simpl; [reflexivity|].
  destruct (String.eqb k k'); reflexivity.
Qed.



End issue_facts.







(** ** Logging in *)

Module login_facts.

Lemma first_user_by_username_found username session user :
  first_user_by_username username session = Some user ->
  In user (users session) /\ User.username user = username.
Proof.
  unfold first_user_by_username. intros H. apply find_some in H.
  destruct H as [Hin H]. apply String.eqb_eq in H. auto.
Qed.

(** What [GET /api/auth/me] answers to a token of the service for
    [username] that has not expired. *)
Lemma get_me_issued t now username d session :
  d <> 0 ->
  t <= now + d ->
  main.get_me t
    (Some (security.create_access_token now [("sub", Str username)]
             (Some d)))
    session
  = match first_user_by_username username session with
    | Some user => Return user
    | None => Raise (HTTPException 404 "User not found")
    end.
Proof.
  intros Hd Ht.
  unfold main.get_me, auth.get_current_user,
    security.create_access_token, jose.encode, security.decode_access_token.
  apply Z.eqb_neq in Hd. rewrite Hd. simpl.
  unfold jose.validate_exp, jose.validate_sub. simpl.
  apply Z.ltb_ge in Ht. rewrite Ht. simpl.
  destruct (first_user_by_username username session); reflexivity.
Qed.

(** The user that [GET /api/auth/me] returns is a row of the table. *)
Lemma get_me_found now authorization session user :
  main.get_me now authorization session = Return user ->
  In user (users session).
Proof.
  unfold main.get_me, auth_user.oauth2_scheme, auth.get_current_user.
  destruct authorization as [token|]; simpl; [|discriminate].
  destruct (security.decode_access_token now token) as [payload|e]; simpl;
    [|discriminate].
  destruct (negb (dict_truthy payload) || negb (dict_contains "sub" payload));
    [discriminate|].
  unfold auth_user.first_user_by_subject.
  destruct (dict_get "sub" payload) as [[z|username|]|]; try discriminate.
  destruct (first_user_by_username username session) as [found|] eqn:Hfound;
    [|discriminate].
  intros H. inversion H; subst.
  apply (first_user_by_username_found _ _ _ Hfound).
Qed.

Section crypt.

Variable bcrypt_digest : string -> string -> string.

(** A successful login, spelled out. *)
Lemma login_value now username password session user :
  first_user_by_username username session = Some user ->
  security.verify_password bcrypt_digest password (User.password_hash user)
  = Return true ->
  auth.login bcrypt_digest now username password session
  = Return
      {| auth.access_token :=
           security.create_access_token now
             [("sub", Str (User.username user))] (Some 604800);
         auth.token_type := "bearer" |}.
Proof.
  intros Hfound Hverify. unfold auth.login. rewrite Hfound, Hverify.
  reflexivity.
Qed.

End crypt.

End login_facts.

(** X4.  The signing key is the constant written in the source.  A token
    that names an existing user and is signed with that constant, with no
    [exp] claim, is accepted by [GET /api/auth/me] as that user at every
    instant. *)
Theorem token_signed_with_the_source_constant_is_accepted :
  forall t username session user,
    first_user_by_username username session = Some user ->
    main.get_me t
      (Some (jose.Jws "HS256" [("sub", Str username)]
               "CHANGE_ME_TO_REAL_SECRET"))
      session
    = Return user.
Proof.
  intros t username session user Hfound.
  unfold main.get_me, auth.get_current_user, security.decode_access_token.
  simpl. rewrite Hfound. reflexivity.
Qed.

Lemma token_signed_with_the_source_constant_is_accepted_witness :
  main.get_me 1000000000
    (Some (jose.Jws "HS256" [("sub", Str "alice")]
             "CHANGE_ME_TO_REAL_SECRET"))
    samples.store_with_alice
  = Return samples.alice.
Proof.
  apply (token_signed_with_the_source_constant_is_accepted 1000000000
           "alice" samples.store_with_alice samples.alice).
  reflexivity.
Defined.

(** X5.  Registration and login compose: after [register_user] succeeded
    with a well-formed salt and checksum, [login] with the same username
    and password succeeds on the resulting store and returns a bearer token
    whose subject is the username and whose expiration is seven days after
    the login. *)
Theorem login_after_registration_succeeds :
  forall bcrypt_digest salt now user_data session user session' later,
    auth.register_user bcrypt_digest salt now user_data session
    = (Return user, session') ->
    passlib.salt_ok salt = true ->
    passlib.checksum_ok
      (bcrypt_digest salt (UserCreate.password user_data)) = true ->
    auth.login bcrypt_digest later (UserCreate.username user_data)
      (UserCreate.password user_data) session'
    = Return
        {| auth.access_token :=
             jose.Jws "HS256"
               [("sub", Str (UserCreate.username user_data));
                ("exp", Int (later + 604800))]
               security.SECRET_KEY;
           auth.token_type := "bearer" |}.
Proof.
  intros bcrypt_digest salt now user_data session user session' later
    Hreg Hsalt Hchk.
  destruct (register_facts.register_user_success _ _ _ _ _ _ _ Hreg)
    as [Hlen [Hname [Hhash [_ [_ Hfound]]]]].
  rewrite (login_facts.login_value bcrypt_digest later _ _ _ user Hfound).
  - rewrite Hname. reflexivity.
  - rewrite Hhash.
    rewrite hash_facts.verify_password_value by assumption.
    rewrite String.eqb_refl. reflexivity.
Qed.

Lemma login_after_registration_succeeds_witness :
  exists user session',
    auth.register_user (fun _ _ => counting.repeat_char "c" 31)
      (counting.repeat_char "s" 22) 0 samples.bob_signup
      samples.store_with_alice = (Return user, session') /\
    auth.login (fun _ _ => counting.repeat_char "c" 31) 7 "bob" "secret1"
      session'
    = Return
        {| auth.access_token :=
             jose.Jws "HS256" [("sub", Str "bob"); ("exp", Int 604807)]
               security.SECRET_KEY;
           auth.token_type := "bearer" |}.
Proof.
  eexists. eexists. split; [reflexivity|].
  eapply (login_after_registration_succeeds
            (fun _ _ => counting.repeat_char "c" 31)
            (counting.repeat_char "s" 22) 0 samples.bob_signup
            samples.store_with_alice _ _ 7);
    reflexivity.
Defined.

(** X6.  [login] answers a wrong password exactly as it answers an unknown
    username: with 401 "Invalid username or password".  (The stored hash is
    one written by [hash_password], the candidate has at most 4096 bytes
    and its checksum differs from the stored one.) *)
Theorem login_failures_are_uniform :
  forall bcrypt_digest now username password session,
    (first_user_by_username username session = None ->
     auth.login bcrypt_digest now username password session
     = Raise (HTTPException 401 "Invalid username or password")) /\
    (forall user salt chk,
        first_user_by_username username session = Some user ->
        User.password_hash user = passlib.to_string salt chk ->
        hash_terms.bcrypt_salt salt = true ->
        hash_terms.bcrypt_checksum chk = true ->
        (String.length password <= passlib.MAX_PASSWORD_SIZE)%nat ->
        bcrypt_digest salt password <> chk ->
        auth.login bcrypt_digest now username password session
        = Raise (HTTPException 401 "Invalid username or password")).
Proof.
  intros bcrypt_digest now username password session. split.
  - intros Hnone. unfold auth.login. rewrite Hnone. reflexivity.
  - intros user salt chk Hfound Hhash Hsalt Hchk Hlen Hdiff.
    unfold auth.login. rewrite Hfound, Hhash.
    rewrite hash_facts.verify_password_value;
      [|apply malformed_facts.bcrypt_salt_ok; exact Hsalt
       |apply malformed_facts.bcrypt_checksum_ok; exact Hchk
       |exact Hlen].
    apply String.eqb_neq in Hdiff. rewrite Hdiff. reflexivity.
Qed.

(** Carol's password is "secret1".  Nobody is unknown; carol with
    "secret2" is refused in the same words; carol with "secret1" logs
    in. *)
Lemma login_failures_are_uniform_witness :
  auth.login samples.digest 0 "nobody" "secret1" samples.store_with_carol
  = Raise (HTTPException 401 "Invalid username or password") /\
  auth.login samples.digest 0 "carol" "secret2" samples.store_with_carol
  = Raise (HTTPException 401 "Invalid username or password") /\
  exists response,
    auth.login samples.digest 0 "carol" "secret1" samples.store_with_carol
    = Return response.
Proof.
  split; [|split].
  - apply (login_failures_are_uniform samples.digest 0 "nobody" "secret1"
             samples.store_with_carol).
    reflexivity.
  - apply (proj2 (login_failures_are_uniform samples.digest 0 "carol"
                    "secret2" samples.store_with_carol)
             samples.carol samples.salt samples.checksum_1);
      try reflexivity.
    + unfold passlib.MAX_PASSWORD_SIZE. simpl. lia.
    + discriminate.
  - eexists. reflexivity.
Defined.

(** X7.  The token that [login] returns authenticates the user who logged
    in: on the same store and at every instant up to seven days after the
    login, [GET /api/auth/me] returns the row found under the username. *)
Theorem login_token_authenticates_its_user :
  forall bcrypt_digest now username password session response t,
    auth.login bcrypt_digest now username password session
    = Return response ->
    t <= now + 7 * 24 * 60 * 60 ->
    exists user,
      first_user_by_username username session = Some user /\
      auth.token_type response = "bearer" /\
      main.get_me t (Some (auth.access_token response)) session
      = Return user.
Proof.
  intros bcrypt_digest now username password session response t Hlogin Ht.
  unfold auth.login in Hlogin.
  destruct (first_user_by_username username session) as [user|] eqn:Hfound;
    [|discriminate Hlogin].
  destruct (security.verify_password bcrypt_digest password
              (User.password_hash user)) as [[|]|e];
    simpl in Hlogin; try discriminate Hlogin.
  inversion Hlogin; subst; clear Hlogin. simpl.
  destruct (login_facts.first_user_by_username_found _ _ _ Hfound)
    as [_ Hname].
  pose proof (login_facts.get_me_issued t now (User.username user)
                (security.ACCESS_TOKEN_EXPIRE_MINUTES * 60) session) as Hme.
  rewrite Hname in Hme |- *. rewrite Hfound in Hme.
  exists user. split; [reflexivity|]. split; [reflexivity|].
  apply Hme; [discriminate|].
  unfold security.ACCESS_TOKEN_EXPIRE_MINUTES. lia.
Qed.

Lemma login_token_authenticates_its_user_witness :
  exists response,
    auth.login samples.digest 7 "carol" "secret1" samples.store_with_carol
    = Return response /\
    main.get_me 100 (Some (auth.access_token response))
      samples.store_with_carol
    = Return samples.carol.
Proof.
  eexists. split; [reflexivity|].
  edestruct (login_token_authenticates_its_user samples.digest 7 "carol"
               "secret1" samples.store_with_carol _ 100 eq_refl)
    as [user [Hfound [_ Hme]]].
  - lia.
  - inversion Hfound; subst. exact Hme.
Defined.

(** X8.  A new username with an email that another user already has is
    refused by the unique index at commit: [register_user] turns the
    [IntegrityError] into 400 "Username or email already exists", and no
    row is added.  (The password has at most 4096 bytes, so that it is
    hashed.) *)
Theorem duplicate_email_is_refused_at_registration :
  forall bcrypt_digest salt now user_data session other e,
    first_user_by_username (UserCreate.username user_data) session = None ->
    UserCreate.email user_data = Some e ->
    In other (users session) ->
    User.email other = Some e ->
    (String.length (UserCreate.password user_data)
     <= passlib.MAX_PASSWORD_SIZE)%nat ->
    fst (auth.register_user bcrypt_digest salt now user_data session)
    = Raise (HTTPException 400 "Username or email already exists") /\
    users (snd (auth.register_user bcrypt_digest salt now user_data session))
    = users session /\
    reports (snd (auth.register_user bcrypt_digest salt now user_data
                    session))
    = reports session.
Proof.
  intros bcrypt_digest salt now user_data session other e Hfree Hemail Hin
    Hother Hlen.
  assert (Hviol : forall row,
             User.username row = UserCreate.username user_data ->
             User.email row = Some e ->
             unique_violation row (users session) = Some "user_email_key").
  { intros row Hname Hmail. unfold unique_violation.
    unfold first_user_by_username in Hfree. rewrite Hname.
    rewrite (user_facts.find_none_existsb _ _ Hfree).
    replace (existsb _ (users session)) with true; [reflexivity|].
    symmetry. apply existsb_exists. exists other. split; [exact Hin|].
    rewrite Hother, Hmail. simpl. apply String.eqb_refl. }
  unfold auth.register_user. rewrite Hfree.
  rewrite (hash_facts.hash_password_value bcrypt_digest salt _ Hlen).
  unfold insert_user.
  rewrite Hviol by (simpl; auto). simpl.
  split; [reflexivity|]. split; reflexivity.
Qed.

Lemma duplicate_email_is_refused_at_registration_witness :
  fst (auth.register_user samples.digest samples.salt 0
         (UserCreate.mk "dave" (Some "a@x.org") None None None "secret1")
         (mkStore [User.mk 1 "ann" (Some "a@x.org") "h" None None None 0 true]
            [] 2 1))
  = Raise (HTTPException 400 "Username or email already exists") /\
  users (snd (auth.register_user samples.digest samples.salt 0
                (UserCreate.mk "dave" (Some "a@x.org") None None None
                   "secret1")
                (mkStore
                   [User.mk 1 "ann" (Some "a@x.org") "h" None None None 0
                      true] [] 2 1)))
  = [User.mk 1 "ann" (Some "a@x.org") "h" None None None 0 true].
Proof.
  destruct (duplicate_email_is_refused_at_registration
              samples.digest samples.salt 0
              (UserCreate.mk "dave" (Some "a@x.org") None None None "secret1")
              (mkStore
                 [User.mk 1 "ann" (Some "a@x.org") "h" None None None 0 true]
                 [] 2 1)
              (User.mk 1 "ann" (Some "a@x.org") "h" None None None 0 true)
              "a@x.org" eq_refl eq_refl (or_introl eq_refl) eq_refl)
    as [Hreg [Husers _]].
  - unfold passlib.MAX_PASSWORD_SIZE. simpl. lia.
  - split; assumption.
Defined.

(** X9.  The hash string determines the salt and the checksum it was
    written from: two calls of [hash_password] return the same string only
    if they used the same salt and computed the same checksum.  In
    particular the same password hashed with two salts gives two different
    strings.  Every hash has 83 characters, whatever the length of the
    password. *)
Theorem hash_password_determines_salt_and_checksum :
  forall bcrypt_digest salt1 salt2 password1 password2 hashed1 hashed2,
    passlib.salt_ok salt1 = true ->
    passlib.salt_ok salt2 = true ->
    passlib.checksum_ok (bcrypt_digest salt1 password1) = true ->
    passlib.checksum_ok (bcrypt_digest salt2 password2) = true ->
    security.hash_password bcrypt_digest salt1 password1 = Return hashed1 ->
    security.hash_password bcrypt_digest salt2 password2 = Return hashed2 ->
    (hashed1 = hashed2 ->
     salt1 = salt2 /\
     bcrypt_digest salt1 password1 = bcrypt_digest salt2 password2) /\
    String.length hashed1 = 83%nat.
Proof.
  intros bcrypt_digest salt1 salt2 password1 password2 hashed1 hashed2
    Hs1 Hs2 Hc1 Hc2 Hh1 Hh2.
  assert (Hval : forall salt password hashed,
             security.hash_password bcrypt_digest salt password
             = Return hashed ->
             hashed = passlib.to_string salt (bcrypt_digest salt password)).
  { intros salt password hashed H.
    unfold security.hash_password, passlib.CryptContext_hash,
      passlib.handler_hash in H.
    destruct (passlib.validate_secret password) as [[]|e];
      simpl in H; inversion H. reflexivity. }
  apply Hval in Hh1. apply Hval in Hh2. subst hashed1 hashed2. split.
  - intros Heq.
    pose proof (hash_facts.from_string_to_string _ _ Hs1 Hc1) as H1.
    pose proof (hash_facts.from_string_to_string _ _ Hs2 Hc2) as H2.
    rewrite Heq, H2 in H1. inversion H1. auto.
  - unfold passlib.to_string. simpl.
    assert (Happ : forall a b,
               String.length (a ++ b)
               = (String.length a + String.length b)%nat).
    { induction a as [|c a IH]; intros b; simpl; [reflexivity|].
      rewrite IH. reflexivity. }
    rewrite Happ. simpl.
    rewrite (hash_facts.salt_ok_length _ Hs1).
    unfold passlib.checksum_ok in Hc1. apply andb_true_iff in Hc1.
    destruct Hc1 as [Hc1 _]. apply Nat.eqb_eq in Hc1. rewrite Hc1.
    reflexivity.
Qed.

Lemma hash_password_determines_salt_and_checksum_witness :
  exists hashed1,
    security.hash_password (fun _ _ => counting.repeat_char "c" 31)
      (counting.repeat_char "s" 22) "secret1" = Return hashed1 /\
    String.length hashed1 = 83%nat.
Proof.
  eexists. split; [reflexivity|].
  eapply (hash_password_determines_salt_and_checksum
            (fun _ _ => counting.repeat_char "c" 31)
            (counting.repeat_char "s" 22) (counting.repeat_char "t" 22)
            "secret1" "secret1");
    reflexivity.
Defined.

(** ** More on reports *)

Module report_facts.

Lemma in_distinct_on_from {row} (key : row -> string) prev l o :
  In o (sql.distinct_on_from key prev l) -> In o l.
Proof.
  revert prev. induction l as [|x l IH]; intros prev; simpl; [tauto|].
  destruct prev as [k|].
  - destruct (String.eqb k (key x)).
    + intros H. right. apply (IH _ H).
    + intros [H|H]; [left; exact H|right; apply (IH _ H)].
  - intros [H|H]; [left; exact H|right; apply (IH _ H)].
Qed.

(** [DISTINCT ON] keeps the order of the rows it keeps. *)
Lemma distinct_on_from_sorted l :
  StronglySorted query_terms.ordered l ->
  forall prev,
    StronglySorted query_terms.ordered
      (sql.distinct_on_from Report.place_name prev l).
Proof.
  induction 1 as [|x l Hl IH Hx]; intros prev; simpl; [constructor|].
  assert (Hkeep : StronglySorted query_terms.ordered
                    (x :: sql.distinct_on_from Report.place_name
                            (Some (Report.place_name x)) l)).
  { constructor; [apply IH|].
    apply Forall_forall. intros o Ho.
    rewrite Forall_forall in Hx. apply Hx.
    apply (in_distinct_on_from _ _ _ _ Ho). }
  destruct prev as [k|]; [|exact Hkeep].
  destruct (String.eqb k (Report.place_name x)); [apply IH|exact Hkeep].
Qed.

(** Ordered rows with distinct places are in strictly increasing order
    of place. *)
Lemma sorted_distinct_places l :
  StronglySorted query_terms.ordered l ->
  NoDup (map Report.place_name l) ->
  StronglySorted
    (fun a b => String.compare (Report.place_name a) (Report.place_name b)
                = Lt) l.
Proof.
  induction 1 as [|x l Hl IH Hx]; intros Hnd; [constructor|].
  simpl in Hnd. inversion Hnd as [|? ? Hnotin Hnd']; subst.
  constructor; [apply IH; exact Hnd'|].
  apply Forall_forall. intros o Ho. rewrite Forall_forall in Hx.
  pose proof (sql_facts.ordered_place x o (Hx o Ho)) as Hle.
  destruct (String.compare (Report.place_name x) (Report.place_name o))
    eqn:E; [|reflexivity|contradiction].
  exfalso. apply Hnotin. apply String.compare_eq_iff in E. rewrite E.
  apply in_map. exact Ho.
Qed.

Lemma StronglySorted_map {A B} (R : B -> B -> Prop) (f : A -> B) l :
  StronglySorted (fun a b => R (f a) (f b)) l ->
  StronglySorted R (map f l).
Proof.
  induction 1 as [|x l Hl IH Hx]; simpl; constructor; [exact IH|].
  apply Forall_forall. intros y Hy. apply in_map_iff in Hy.
  destruct Hy as [o [<- Ho]]. rewrite Forall_forall in Hx. apply Hx.
  exact Ho.
Qed.

End report_facts.

(** X10.  The rows of a nearby answer come in strictly increasing order
    of place name (the order of the [ORDER BY] clause), not in order of
    distance. *)
Theorem nearby_rows_are_ordered_by_place_name :
  forall ST_Distance ST_DWithin lat lon radius_km session,
    exists response,
      reports.get_nearby_reports ST_Distance ST_DWithin lat lon radius_km
        session = Return response /\
      StronglySorted
        (fun a b => String.compare (reports.place_name a)
                                   (reports.place_name b) = Lt)
        (reports.data response).
Proof.
  intros ST_Distance ST_DWithin lat lon radius_km session.
  eexists. split; [apply nearby_facts.get_nearby_reports_value|].
  simpl. apply report_facts.StronglySorted_map.
  apply report_facts.sorted_distinct_places.
  - apply report_facts.distinct_on_from_sorted.
    apply sql_facts.order_by_sorted.
  - apply (nearby_facts.nearby_rows_spec ST_DWithin lon lat
             (Qmult radius_km (inject_Z 1000)) session).
Qed.

(** X11.  The [distance_km] of a row differs from the distance it was
    rounded from by at most half a hundredth: [round2 x] is within 1/200 of
    [x], and is a whole number of hundredths. *)
Theorem round2_is_within_half_a_hundredth :
  forall x : Q,
    Qle (Qabs (Qminus (reports.round2 x) x)) (1 # 200) /\
    Qden (reports.round2 x) = 100%positive.
Proof.
  intros [p q]. split; [|reflexivity].
  apply Qabs_Qle_condition.
  unfold reports.round2.
  cbn [Qmult inject_Z Qnum Qden]. rewrite Pos.mul_1_r.
  pose proof (Z.div_mod (p * 100) (Zpos q) ltac:(discriminate)) as Hdm.
  pose proof (Z.mod_pos_bound (p * 100) (Zpos q) ltac:(reflexivity)) as Hb.
  set (fl := p * 100 / Zpos q) in *.
  set (r := (p * 100) mod Zpos q) in *.
  match goal with
  | |- context [Qmake ?k0 100] => set (k := k0)
  end.
  assert (Hk : (k = fl /\ 2 * r <= Zpos q) \/
               (k = fl + 1 /\ Zpos q <= 2 * r)).
  { unfold k.
    destruct (Z.compare_spec (2 * r) (Zpos q)) as [Heq|Hlt|Hgt].
    - destruct (Z.even fl); cbn [negb]; [left|right]; split; lia.
    - left. split; [reflexivity|lia].
    - right. split; [reflexivity|lia]. }
  clearbody k.
  unfold Qle, Qminus, Qplus, Qopp. cbn [Qnum Qden].
  rewrite !Pos2Z.inj_mul.
  change (Zpos 100) with 100. change (Zpos 200) with 200.
  destruct Hk as [[-> Hr]|[-> Hr]]; split; nia.
Qed.

(** ** app/crud.py *)

Module crud_facts.

Lemma in_firstn {A} n (l : list A) x : In x (firstn n l) -> In x l.
Proof.
  intros H. rewrite <- (firstn_skipn n l). apply in_or_app. left. exact H.
Qed.

End crud_facts.

(** X12.  [crud.get_reports_nearby] returns at most 50 rows, each of them
    a stored report within the distance; and when at most 50 stored reports
    are within the distance it returns all of them, several per place if
    there are several. *)
Theorem crud_nearby_is_capped_at_fifty :
  forall ST_DWithin db lat lon radius_meters,
    let within r :=
      ST_DWithin (Report.location r) (ST_MakePoint lon lat)
        (inject_Z radius_meters) = true in
    let found := crud.get_reports_nearby ST_DWithin db lat lon radius_meters
    in
    (List.length found <= 50)%nat /\
    (forall r, In r found -> In r (reports db) /\ within r) /\
    ((List.length (filter (fun r => ST_DWithin (Report.location r)
                                      (ST_MakePoint lon lat)
                                      (inject_Z radius_meters))
                          (reports db)) <= 50)%nat ->
     forall r, In r (reports db) -> within r -> In r found).
Proof.
  intros ST_DWithin db lat lon radius_meters within found.
  unfold found, crud.get_reports_nearby, within.
  repeat split.
  - apply firstn_le_length.
  - apply crud_facts.in_firstn in H. apply filter_In in H. apply H.
  - apply crud_facts.in_firstn in H. apply filter_In in H. apply H.
  - intros Hlen r Hr Hw. rewrite firstn_all2 by exact Hlen.
    apply filter_In. auto.
Qed.

(** ** More on users *)

Module avatar_facts.

Import invariants.

Lemma last_segment_no_slash acc s :
  no_slash s = true -> users.last_segment acc s = acc ++ s.
Proof.
  revert acc. induction s as [|a s IH]; intros acc; simpl.
  - intros _. induction acc; simpl; congruence.
  - intros H. apply andb_true_iff in H. destruct H as [Ha Hs].
    apply negb_true_iff in Ha. rewrite Ha, (IH _ Hs).
    rewrite hash_facts.append_assoc. reflexivity.
Qed.

Lemma last_segment_after_slash acc dir file :
  users.last_segment acc (dir ++ "/" ++ file)
  = users.last_segment EmptyString file.
Proof.
  revert acc. induction dir as [|a dir IH]; intros acc; simpl.
  - reflexivity.
  - destruct (Ascii.eqb a "/"); apply IH.
Qed.

End avatar_facts.

(** X13.  [build_avatar_url] is idempotent: applied to its own result it
    changes nothing, so a row whose avatar was already rewritten for display
    is shown with the same URL. *)
Theorem build_avatar_url_is_idempotent :
  forall avatar_path,
    users.build_avatar_url (users.build_avatar_url avatar_path)
    = users.build_avatar_url avatar_path.
Proof.
  intros [[|a path]|]; try reflexivity.
  assert (H : users.build_avatar_url (Some (String a path))
              = if startswith (String a path) "http"
                then Some (String a path)
                else Some ("https://slaphappy-sylas-museful.ngrok-free.dev"
                           ++ "/static/uploads/"
                           ++ users.last_segment EmptyString (String a path)))
    by reflexivity.
  rewrite H. destruct (startswith (String a path) "http") eqn:E.
  - exact H.
  - reflexivity.
Qed.

(** X14.  For a stored path that is not a URL, [build_avatar_url] keeps
    the file name only: whatever directory precedes the last slash, the
    result is the public upload URL followed by the file name. *)
Theorem build_avatar_url_keeps_the_file_name :
  forall dir file,
    invariants.no_slash file = true ->
    startswith (dir ++ "/" ++ file) "http" = false ->
    users.build_avatar_url (Some (dir ++ "/" ++ file))
    = Some ("https://slaphappy-sylas-museful.ngrok-free.dev/static/uploads/"
            ++ file).
Proof.
  intros dir file Hfile Hhttp.
  unfold users.build_avatar_url. rewrite Hhttp.
  rewrite avatar_facts.last_segment_after_slash.
  rewrite (avatar_facts.last_segment_no_slash _ _ Hfile).
  destruct (dir ++ "/" ++ file) eqn:E.
  - destruct dir; discriminate E.
  - reflexivity.
Qed.

Lemma build_avatar_url_keeps_the_file_name_witness :
  users.build_avatar_url (Some "/static/uploads/ab12.png")
  = Some ("https://slaphappy-sylas-museful.ngrok-free.dev/static/uploads/"
          ++ "ab12.png").
Proof.
  apply (build_avatar_url_keeps_the_file_name "/static/uploads" "ab12.png");
    reflexivity.
Defined.

(** ** The current user's profile *)

Module profile_facts.

(** After the UPDATE, the row with the primary key of [u] is the updated
    row. *)
Lemma get_user_updated (f : User.t -> User.t) u (l : list User.t) :
  (forall o, User.id (f o) = User.id o) ->
  In u l ->
  NoDup (map User.id l) ->
  find (fun o => User.id o =? User.id u)
       (map (fun o => if User.id o =? User.id u then f o else o) l)
  = Some (f u).
Proof.
  intros Hf. induction l as [|a l IH]; simpl; [contradiction|].
  intros [->|Hin] Hnd.
  - rewrite Z.eqb_refl. simpl. rewrite Hf, Z.eqb_refl. reflexivity.
  - inversion Hnd as [|? ? Hnotin Hnd']; subst.
    destruct (Z.eqb_spec (User.id a) (User.id u)) as [Heq|Hne].
    + exfalso. apply Hnotin. rewrite Heq. apply in_map. exact Hin.
    + simpl. destruct (Z.eqb_spec (User.id a) (User.id u));
        [contradiction|]. apply IH; assumption.
Qed.

(** The rows with another primary key are found as before. *)
Lemma get_user_other (f : User.t -> User.t) user_id other
    (l : list User.t) :
  (forall o, User.id (f o) = User.id o) ->
  other <> user_id ->
  find (fun o => User.id o =? other)
       (map (fun o => if User.id o =? user_id then f o else o) l)
  = find (fun o => User.id o =? other) l.
Proof.
  intros Hf Hne. induction l as [|a l IH]; simpl; [reflexivity|].
  destruct (Z.eqb_spec (User.id a) user_id) as [Heq|Hdiff].
  - rewrite Hf. destruct (Z.eqb_spec (User.id a) other) as [Heq'|_];
      [congruence|exact IH].
  - destruct (User.id a =? other); [reflexivity|exact IH].
Qed.

Lemma setattrs_id update_data o :
  User.id (setattrs o update_data) = User.id o.
Proof. apply (register_facts.setattrs_kept o update_data). Qed.

(** What a commit of the profile form leaves in the store. *)
Lemma update_user_columns_spec current_user update_data session :
  In current_user (users session) ->
  NoDup (map User.id (users session)) ->
  let session' :=
    update_user_columns (User.id current_user) update_data session in
  models.get_user (User.id current_user) session'
  = Some (setattrs current_user update_data) /\
  reports session' = reports session /\
  forall other, other <> User.id current_user ->
    models.get_user other session' = models.get_user other session.
Proof.
  intros Hin Hnd. unfold models.get_user, update_user_columns. simpl.
  split; [|split].
  - apply (get_user_updated (fun o => setattrs o update_data));
      [intros o; apply setattrs_id|exact Hin|exact Hnd].
  - reflexivity.
  - intros other Hne.
    apply (get_user_other (fun o => setattrs o update_data));
      [intros o; apply setattrs_id|exact Hne].
Qed.

End profile_facts.

(** X15.  [PUT /api/auth/me] for a token that the service reads and that
    resolves to a user.  The request fails with 400 when it carries neither
    name nor bio nor file, and with 500, changing nothing, when the
    uploaded file cannot be written.  Otherwise it succeeds, and the row it
    returns is the row stored under the user's id: it keeps the id,
    username, email, password hash, join time and active flag; name and bio
    are the supplied values or the old ones; and the avatar is the upload
    path made of the random hex name and the suffix of the file, the
    [avatar] field being preferred to the [avatar_url] field.  No other
    user and no report is touched.  (Primary keys are distinct.) *)
Theorem profile_update_touches_only_name_bio_and_avatar :
  forall Path_suffix token_hex write_ok now token name bio avatar
         avatar_url session current_user,
    token_kinds.readable now token ->
    main.get_me now (Some token) session = Return current_user ->
    NoDup (map User.id (users session)) ->
    let run :=
      main.put_me Path_suffix token_hex write_ok now (Some token)
        name bio avatar avatar_url session in
    let uploaded_file :=
      match avatar with Some f => Some f | None => avatar_url end in
    (name = None -> bio = None -> uploaded_file = None ->
     run = (Raise (HTTPException 400 "No fields provided"), session)) /\
    (uploaded_file <> None -> write_ok = false ->
     snd run = session /\ response_status (fst run) = 500) /\
    ((name <> None \/ bio <> None \/ uploaded_file <> None) ->
     (uploaded_file <> None -> write_ok = true) ->
     exists row session',
       run = (Return row, session') /\
       models.get_user (User.id current_user) session' = Some row /\
       User.id row = User.id current_user /\
       User.username row = User.username current_user /\
       User.email row = User.email current_user /\
       User.password_hash row = User.password_hash current_user /\
       User.joined_at row = User.joined_at current_user /\
       User.is_active row = User.is_active current_user /\
       User.name row
       = match name with
         | Some n => Some n
         | None => User.name current_user
         end /\
       User.bio row
       = match bio with
         | Some b => Some b
         | None => User.bio current_user
         end /\
       User.avatar_url row
       = match uploaded_file with
         | Some f =>
             Some ("/static/uploads/" ++ token_hex
                   ++ Path_suffix (auth.filename f))
         | None => User.avatar_url current_user
         end /\
       reports session' = reports session /\
       forall other, other <> User.id current_user ->
         models.get_user other session' = models.get_user other session).
Proof.
  intros Path_suffix token_hex write_ok now token name bio avatar
    avatar_url session current_user _ Hme Hnd run uploaded_file.
  pose proof (login_facts.get_me_found _ _ _ _ Hme) as Hin.
  unfold run, main.put_me. rewrite Hme.
  unfold auth.update_current_user_profile.
  fold uploaded_file.
  split; [|split].
  - intros -> -> ->. reflexivity.
  - intros Hfile ->.
    destruct uploaded_file as [f|]; [|contradiction Hfile; reflexivity].
    split; reflexivity.
  - intros Hsome Hwrite.
    assert (Hdone : forall update_data,
               update_data <> [] ->
               exists row session',
                 (Return (setattrs current_user update_data),
                  update_user_columns (User.id current_user) update_data
                    session) = (Return row, session') /\
                 models.get_user (User.id current_user) session' = Some row /\
                 row = setattrs current_user update_data /\
                 reports session' = reports session /\
                 forall other, other <> User.id current_user ->
                   models.get_user other session'
                   = models.get_user other session).
    { intros update_data _.
      destruct (profile_facts.update_user_columns_spec current_user
                  update_data session Hin Hnd) as [H1 [H2 H3]].
      eexists. eexists. split; [reflexivity|].
      split; [exact H1|]. split; [reflexivity|]. split; [exact H2|exact H3]. }
    destruct uploaded_file as [f|].
    + rewrite (Hwrite ltac:(discriminate)).
      destruct name as [n|], bio as [b|];
        cbn - [setattrs update_user_columns models.get_user];
        match goal with
        | |- context [setattrs current_user ?d] =>
            destruct (Hdone d ltac:(discriminate))
              as [row [session' [Hrun [Hget [Hrow [Hrep Hoth]]]]]]
        end;
        exists row, session';
        (split; [exact Hrun|]); (split; [exact Hget|]);
        repeat (split; [rewrite Hrow; reflexivity|]); split; assumption.
    + destruct name as [n|], bio as [b|];
        cbn - [setattrs update_user_columns models.get_user];
        try (exfalso; destruct Hsome as [H|[H|H]]; apply H; reflexivity);
        match goal with
        | |- context [setattrs current_user ?d] =>
            destruct (Hdone d ltac:(discriminate))
              as [row [session' [Hrun [Hget [Hrow [Hrep Hoth]]]]]]
        end;
        exists row, session';
        (split; [exact Hrun|]); (split; [exact Hget|]);
        repeat (split; [rewrite Hrow; reflexivity|]); split; assumption.
Qed.

(** Alice sends an empty form, then a picture that cannot be written,
    then sets her name and uploads a picture. *)
Lemma profile_update_touches_only_name_bio_and_avatar_witness :
  main.put_me (fun _ => ".png") "00ff" true 10 (Some samples.alice_token)
    None None None None samples.store_with_alice
  = (Raise (HTTPException 400 "No fields provided"),
     samples.store_with_alice) /\
  (snd (main.put_me (fun _ => ".png") "00ff" false 10
          (Some samples.alice_token) (Some "Al") None None
          (Some (auth.mkUploadFile "me.png" "PNG")) samples.store_with_alice)
   = samples.store_with_alice /\
   response_status
     (fst (main.put_me (fun _ => ".png") "00ff" false 10
             (Some samples.alice_token) (Some "Al") None None
             (Some (auth.mkUploadFile "me.png" "PNG"))
             samples.store_with_alice)) = 500) /\
  exists row session',
    main.put_me (fun _ => ".png") "00ff" true 10 (Some samples.alice_token)
      (Some "Al") None (Some (auth.mkUploadFile "me.png" "PNG")) None
      samples.store_with_alice = (Return row, session') /\
    models.get_user 5 session' = Some row /\
    User.username row = "alice" /\
    User.name row = Some "Al" /\
    User.avatar_url row = Some "/static/uploads/00ff.png".
Proof.
  assert (Hread : token_kinds.readable 10 samples.alice_token).
  { exists [("sub", Str "alice"); ("exp", Int 1000)].
    split; [reflexivity|]. intros k Hk. simpl in Hk.
    repeat (destruct Hk as [<-|Hk]; [reflexivity|]). destruct Hk. }
  assert (Hme : main.get_me 10 (Some samples.alice_token)
                  samples.store_with_alice = Return samples.alice)
    by reflexivity.
  assert (Hnd : NoDup (map User.id (users samples.store_with_alice)))
    by (simpl; constructor; [intros []|constructor]).
  split; [|split].
  - apply (profile_update_touches_only_name_bio_and_avatar
             (fun _ => ".png") "00ff" true 10 samples.alice_token
             None None None None samples.store_with_alice samples.alice
             Hread Hme Hnd); reflexivity.
  - apply (proj1 (proj2 (profile_update_touches_only_name_bio_and_avatar
                           (fun _ => ".png") "00ff" false 10
                           samples.alice_token (Some "Al") None None
                           (Some (auth.mkUploadFile "me.png" "PNG"))
                           samples.store_with_alice samples.alice
                           Hread Hme Hnd)));
      [discriminate|reflexivity].
  - destruct (profile_update_touches_only_name_bio_and_avatar
                (fun _ => ".png") "00ff" true 10 samples.alice_token
                (Some "Al") None (Some (auth.mkUploadFile "me.png" "PNG"))
                None samples.store_with_alice samples.alice Hread Hme Hnd)
      as [_ [_ Hok]].
    destruct Hok as [row [session' [Hrun [Hget [_ [Hname [_ [_ [_ [_
                       [Hn [_ [Ha _]]]]]]]]]]]]].
    + left. discriminate.
    + reflexivity.
    + exists row, session'. split; [exact Hrun|]. split; [exact Hget|].
      split; [exact Hname|]. split; [exact Hn|exact Ha].
Defined.

